(** * Ambient declarations of the CoffeeScript AST ([index.d.ts])

    The file [index.d.ts] holds no executable code: it is a list of ambient
    TypeScript declarations.  The embedding below therefore has three layers

    - the declarations themselves, as data ([ty], [member], [class_decl],
      [top_decl]) and the table [index_d_ts] transcribed member by member
      from the source;
    - what TypeScript makes of that table: resolution of a name, the
      [extends] chain, the members a class has once inheritance and
      overriding are taken into account;
    - what a declared type says about a JavaScript value ([has_type]),
      with structural typing of objects.
*)

From Stdlib Require Import String List Bool Arith Lia.
Import ListNotations.
Open Scope string_scope.
Open Scope list_scope.

(** ** Syntax of the declarations *)

(** Type expressions, as they are written in the source.  [TRef] is a bare
    name ([Base], [LocationData], [Scope]), [TQual] a qualified one
    ([Nodes.Block]).  [TArray] stands for both [T[]] and [Array<T>]. *)
#[local] Unset Elimination Schemes.
Inductive ty : Type :=
| TAny
| TString
| TNumber
| TBoolean
| TVoid
| TUndefined
| TNull
| TTrue
| TStrLit (s : string)
| TRef (name : string)
| TQual (ns name : string)
| TArray (elem : ty)
| TUnion (alts : list ty)
| TObject (props : list binding)
| TFun (params : list binding) (ret : ty)
with binding : Type :=
| Bind (name : string) (optional : bool) (t : ty).
#[local] Set Elimination Schemes.

Definition b_name (b : binding) : string := let (n, _, _) := b in n.
Definition b_optional (b : binding) : bool := let (_, o, _) := b in o.
Definition b_type (b : binding) : ty := let (_, _, t) := b in t.

(** A class or interface member is a property signature or a method
    signature. *)
Inductive signature : Type :=
| PropertySig (t : ty)
| MethodSig (params : list binding) (ret : ty).

(** What an implementation would be, were there one: the initializer of a
    property or the statement block of a method, kept as source text. *)
Inductive implementation : Type :=
| Initializer (src : string)
| BodyBlock (src : list string).

Record member : Type := mkMember {
  m_public : bool;            (* written with the [public] modifier *)
  m_name : string;
  m_optional : bool;          (* written [name?] *)
  m_sig : signature;
  m_impl : option implementation
}.

Record class_decl : Type := mkClass {
  c_doc : list string;        (* the lines of the JSDoc block above the class *)
  c_name : string;
  c_extends : option string;
  c_members : list member
}.

Record interface_decl : Type := mkInterface {
  i_name : string;
  i_members : list member
}.

(** Declarations that may stand inside [declare namespace Nodes]. *)
Inductive ns_decl : Type :=
| NsInterface (i : interface_decl)
| NsAlias (name : string) (t : ty)
| NsClass (c : class_decl).

(** Top-level declarations of the file. *)
Inductive top_decl : Type :=
| DeclareClass (c : class_decl)
| DeclareNamespace (name : string) (body : list ns_decl)
| Interface (i : interface_decl)
| DeclareModule (name : string) (export_assignment : string)
| DeclareConst (name : string) (t : ty) (init : option string).

(** ** The table *)

(** [public name: t;] *)
Definition pub (name : string) (t : ty) : member :=
  mkMember true name false (PropertySig t) None.
(** [public name?: t;] *)
Definition pub_opt (name : string) (t : ty) : member :=
  mkMember true name true (PropertySig t) None.
(** [public name(params): ret;] *)
Definition pub_method (name : string) (params : list binding) (ret : ty) : member :=
  mkMember true name false (MethodSig params ret) None.
(** [name: t;] (interface member) *)
Definition field (name : string) (t : ty) : member :=
  mkMember false name false (PropertySig t) None.
(** [name?: t;] (interface member) *)
Definition field_opt (name : string) (t : ty) : member :=
  mkMember false name true (PropertySig t) None.
(** [name(params): ret;] (interface member) *)
Definition method (name : string) (params : list binding) (ret : ty) : member :=
  mkMember false name false (MethodSig params ret) None.

(** [name: t] and [name?: t] in a parameter list or an object type. *)
Definition req (name : string) (t : ty) : binding := Bind name false t.
Definition opt (name : string) (t : ty) : binding := Bind name true t.

(** [class name extends parent { members }] without a JSDoc block. *)
Definition cls (name parent : string) (members : list member) : ns_decl :=
  NsClass (mkClass [] name (Some parent) members).

Definition Scope : class_decl :=
  mkClass [] "Scope" None
    [ pub "variables" (TArray (TObject [req "name" TString; req "type" TString]));
      pub "positions" TAny;
      pub_opt "utilities" TAny ].

Definition AbstractO : interface_decl :=
  mkInterface "AbstractO"
    [ field "index" TNumber;
      field "level" TNumber;
      field "indent" TNumber;
      field "sharedScope" TBoolean;
      field_opt "scope" (TRef "Scope") ].

Definition ChildKind : ty :=
  TUnion (map TStrLit
    [ "accessor"; "alias"; "args"; "array"; "attempt"; "base"; "body";
      "cases"; "child"; "class"; "clause"; "condition"; "defaultBinding";
      "elseBody"; "ensure"; "expression"; "expressions"; "first"; "from";
      "guard"; "index"; "name"; "namedImports"; "object"; "objects"; "original";
      "otherwise"; "params"; "parent"; "properties"; "range"; "recovery"; "second";
      "source"; "specifiers"; "step"; "subject"; "to"; "value"; "variable" ]).

Definition CodeFragment : class_decl :=
  mkClass
    [ "The various nodes defined below all compile to a collection of **CodeFragment** objects.";
      "A CodeFragments is a block of generated code, and the location in the source file where the code";
      "came from. CodeFragments can be assembled together into working code just by catting together";
      "all the CodeFragments' `code` snippets, in order." ]
    "CodeFragment" None
    [ pub "locationData" (TRef "LocationData");
      pub_method "toString" [] TString ].

Definition o_opt : list binding := [opt "o" (TRef "AbstractO")].
Definition o_req : list binding := [req "o" (TRef "AbstractO")].
Definition child_pred : ty := TFun [req "child" (TRef "Base")] TBoolean.

Definition Base : class_decl :=
  mkClass
    [ "The **Base** is the abstract base class for all nodes in the syntax tree.";
      "Each subclass implements the `compileNode` method, which performs the";
      "code generation for that node. To compile a node to JavaScript,";
      "call `compile` on it, which wraps `compileNode` in some generic extra smarts,";
      "to know when the generated code needs to be wrapped up in a closure.";
      "An options hash is passed and cloned throughout, containing information about";
      "the environment from higher in the tree (such as if a returned value is";
      "being requested by the surrounding function), information about the current";
      "scope, and indentation level." ]
    "Base" None
    [ pub "children" (TArray (TRef "ChildKind"));
      pub "compiledComments" (TArray (TRef "Base"));
      pub "locationData" (TRef "LocationData");
      pub_method "contains" [req "pred" (TRef "Base")] (TUnion [TTrue; TUndefined]);
      pub_method "lastNode" [req "list" (TArray (TRef "Base"))] (TUnion [TRef "Base"; TNull]);
      pub_method "toString" [opt "idt" TString; opt "name" TString] TString;
      pub_method "eachChild" [req "func" child_pred] (TRef "Base");
      pub_method "traverseChildren" [req "crossScope" TBoolean; req "func" child_pred] TVoid;
      pub_method "replaceInContext"
        [ req "match" child_pred;
          req "replacement"
            (TFun [ req "childOrChildren" (TUnion [TRef "Base"; TArray (TRef "Base")]);
                    req "context" (TRef "Base") ]
                  (TRef "Base")) ]
        TBoolean;
      pub_method "unwrapAll" [] (TRef "Base");
      pub_method "isStatement" o_opt TBoolean;
      pub_method "includeCommentFragments" [] TBoolean;
      pub_method "jumps" o_opt TBoolean;
      pub_method "shouldCache" o_opt TBoolean;
      pub_method "isChainable" o_opt TBoolean;
      pub_method "isAssignable" o_opt TBoolean;
      pub_method "isNumber" o_opt TBoolean;
      pub_method "assigns" [req "name" TString] TBoolean;
      pub_method "joinFragmentArrays"
        [req "fragmentsList" (TArray (TRef "Base")); req "joinStr" TString]
        (TArray TAny) ].

Definition HoistTarget : class_decl :=
  mkClass
    [ "A **HoistTargetNode** represents the output location in the node tree for a hoisted node.";
      "@see Base#hoist" ]
    "HoistTarget" (Some "Base")
    [ pub_method "isStatement" o_req TBoolean ].

Definition Literal : class_decl :=
  mkClass
    [ "`Literal` is a base class for static values that can be passed through";
      "directly into JavaScript without translation, such as: strings, numbers,";
      "`true`, `false`, `null`..." ]
    "Literal" (Some "Base")
    [ pub "value" TString ].

Definition Value : class_decl :=
  mkClass [] "Value" (Some "Base")
    [ pub "base" (TUnion [TRef "Obj"; TRef "Literal"; TRef "PropertyName"; TRef "Code"; TRef "Call"]);
      pub "properties" (TUnion [TArray (TRef "Assign"); TArray (TRef "Access")]);
      pub "isDefaultValue" TBoolean;
      pub_method "shouldCache" [] TBoolean;
      pub_method "assigns" [req "name" TString] TBoolean;
      pub_method "jumps" o_req TBoolean;
      pub_method "isAssignable" [] TBoolean;
      pub_method "isStatement" o_req TBoolean;
      pub_method "hasProperties" [] TBoolean;
      pub_method "isArray" [] TBoolean;
      pub_method "isRange" [] TBoolean;
      pub_method "isNumber" [] TBoolean;
      pub_method "isString" [] TBoolean;
      pub_method "isRegex" [] TBoolean;
      pub_method "isUndefined" [] TBoolean;
      pub_method "isNull" [] TBoolean;
      pub_method "isBoolean" [] TBoolean;
      pub_method "isAtomic" [] TBoolean;
      pub_method "isNotCallable" [] TBoolean;
      pub_method "isObject" [req "onlyGenerated" TBoolean] TBoolean;
      pub_method "isSplice" [] TBoolean;
      pub_method "looksStatic" [req "className" TString] TBoolean ].

Definition ModuleDeclaration : class_decl :=
  mkClass [ "import and export" ] "ModuleDeclaration" (Some "Base")
    [ pub "clause" (TRef "ImportClause");
      pub "source" TString ].

Definition Assign : class_decl :=
  mkClass [] "Assign" (Some "Base")
    [ pub_opt "variable" (TRef "Value");
      pub "value" (TUnion [TRef "Value"; TRef "Code"]);
      pub "context" TString;
      pub "options"
        (TObject [ req "param" TString;
                   req "subpattern" TString;
                   req "operatorToken" TString;
                   req "moduleDeclaration" (TUnion [TStrLit "import"; TStrLit "export"]) ]) ].

Definition LocationData : interface_decl :=
  mkInterface "LocationData"
    [ field "first_line" TNumber;
      field "first_column" TNumber;
      field "last_line" TNumber;
      field "last_column" TNumber ].

(** The body of [declare namespace Nodes], in source order. *)
Definition Nodes : list ns_decl :=
  [ NsInterface AbstractO;
    NsAlias "ChildKind" ChildKind;
    NsClass CodeFragment;
    NsClass Base;
    NsClass HoistTarget;
    cls "Block" "Base" [ pub "expressions" (TArray (TRef "Base")) ];
    NsClass Literal;
    cls "NumberLiteral" "Literal" [];
    cls "InfinityLiteral" "NumberLiteral" [];
    cls "NaNLiteral" "NumberLiteral" [];
    cls "StringLiteral" "Literal" [];
    cls "RegexLiteral" "Literal" [];
    cls "PassthroughLiteral" "Literal" [];
    cls "IdentifierLiteral" "Literal" [];
    cls "CSXTag" "IdentifierLiteral" [];
    cls "PropertyName" "Literal" [];
    cls "StatementLiteral" "Literal" [];
    cls "ThisLiteral" "Literal" [];
    cls "UndefinedLiteral" "Literal" [];
    cls "NullLiteral" "Literal" [];
    cls "BooleanLiteral" "Literal" [];
    cls "Return" "Base" [ pub "expression" (TArray (TRef "Base")) ];
    cls "YieldReturn" "Return" [];
    cls "AwaitReturn" "Return" [];
    NsClass Value;
    cls "HereComment" "Base"
      [ pub "content" TString; pub "newLine" TBoolean; pub "unshift" TBoolean ];
    cls "LineComment" "Base"
      [ pub "content" TString; pub "newLine" TBoolean; pub "unshift" TBoolean ];
    cls "Call" "Base"
      [ pub "variable" (TRef "Value");
        pub "args" (TArray (TRef "Param"));
        pub "isNew" TBoolean;
        pub "csx" TBoolean ];
    cls "DynamicImportCall" "Call" [];
    cls "SuperCall" "Call" [];
    cls "Super" "Base" [ pub "ancestor" (TRef "Base") ];
    cls "RegexWithInterpolations" "Call" [];
    cls "TaggedTemplateCall" "Call" [];
    cls "Extends" "Base"
      [ pub "child" (TRef "IdentifierLiteral"); pub "parent" (TRef "IdentifierLiteral") ];
    cls "Access" "Base"
      [ pub "name" (TUnion [TRef "IdentifierLiteral"; TRef "PropertyName"]) ];
    cls "Index" "Base" [ pub "index" (TRef "Value") ];
    cls "Range" "Base" [ pub "from" (TRef "Value"); pub "to" (TRef "Value") ];
    cls "Slice" "Base" [ pub "range" (TRef "Range") ];
    cls "Obj" "Base"
      [ pub "generated" TBoolean;
        pub "lhs" TBoolean;
        pub "objects" (TArray (TRef "PropertyName"));
        pub "properties" (TArray (TRef "Assign"));
        pub_method "hasSplat" [] TBoolean ];
    cls "Arr" "Base"
      [ pub "lhs" TBoolean; pub "objects" (TArray (TRef "PropertyName")) ];
    cls "Class" "Base"
      [ pub "variable" (TRef "Value"); pub "parent" (TRef "Base"); pub "body" (TRef "Block") ];
    NsClass ModuleDeclaration;
    cls "ImportDeclaration" "ModuleDeclaration" [];
    cls "ImportClause" "Base"
      [ pub "defaultBinding" (TRef "Base"); pub "namedImports" (TRef "Base") ];
    cls "ExportDeclaration" "ModuleDeclaration" [];
    cls "ExportNamedDeclaration" "ExportDeclaration" [];
    cls "ExportDefaultDeclaration" "ExportDeclaration" [];
    cls "ExportAllDeclaration" "ExportDeclaration" [];
    cls "ModuleSpecifierList" "Base" [ pub "specifiers" (TArray (TRef "ModuleSpecifier")) ];
    cls "ImportSpecifierList" "ModuleSpecifierList" [];
    cls "ExportSpecifierList" "ModuleSpecifierList" [];
    cls "ModuleSpecifier" "Base"
      [ pub "original" (TRef "Base"); pub "alias" (TRef "Base"); pub "identifier" TString ];
    cls "ImportSpecifier" "ModuleSpecifier" [];
    cls "ImportDefaultSpecifier" "ImportSpecifier" [];
    cls "ImportNamespaceSpecifier" "ImportSpecifier" [];
    cls "ExportSpecifier" "ModuleSpecifier" [];
    NsClass Assign;
    cls "FuncGlyph" "Base" [ pub "glyph" (TUnion [TStrLit "->"; TStrLit "=>"]) ];
    cls "Code" "Base"
      [ pub "params" (TArray (TRef "Param"));
        pub "body" (TRef "Block");
        pub "funcGlyph" (TRef "FuncGlyph");
        pub "bound" TBoolean;
        pub "isGenerator" TBoolean;
        pub "isAsync" TBoolean;
        pub "isMethod" TBoolean ];
    cls "Param" "Base"
      [ pub "name" (TUnion [TRef "Literal"; TRef "Value"]);
        pub_opt "value" (TRef "Value");
        pub_opt "splat" (TRef "Splat") ];
    cls "Splat" "Base" [ pub "name" (TRef "Literal") ];
    cls "Expansion" "Base" [];
    cls "While" "Base"
      [ pub "condition" (TRef "Base"); pub "guard" (TRef "Base"); pub "body" (TRef "Block") ];
    cls "Op" "Base" [ pub "first" TString; pub "sencond" TString ];
    cls "In" "Base" [ pub "object" (TRef "Base"); pub "array" (TRef "Base") ];
    cls "Try" "Base"
      [ pub "attempt" (TRef "Block"); pub "recovery" (TRef "Block"); pub "ensure" (TRef "Block") ];
    cls "Throw" "Base" [ pub "expression" (TRef "Base") ];
    cls "Existence" "Base" [ pub "expression" (TRef "Base") ];
    cls "Parens" "Base" [ pub "body" (TRef "Base") ];
    cls "StringWithInterpolations" "Base" [ pub "body" (TRef "Base") ];
    cls "For" "While"
      [ pub "body" (TRef "Block");
        pub "source" (TRef "Base");
        pub "guard" (TRef "Base");
        pub "step" (TRef "Base") ];
    cls "Switch" "Base"
      [ pub "subject" (TRef "Base"); pub "cases" (TRef "Base"); pub "otherwise" (TRef "Base") ];
    cls "If" "Base"
      [ pub "condition" (TRef "Base"); pub "body" (TRef "Block"); pub "elseBody" (TRef "Block") ];
    NsInterface LocationData ].

Definition CoffeeScriptStatic : interface_decl :=
  mkInterface "CoffeeScriptStatic"
    [ method "nodes" [req "source" TString; opt "options" TAny] (TQual "Nodes" "Block") ].

(** The whole file, in source order. *)
Definition index_d_ts : list top_decl :=
  [ DeclareClass Scope;
    DeclareNamespace "Nodes" Nodes;
    Interface CoffeeScriptStatic;
    DeclareModule "coffeescript/lib/coffeescript/nodes" "Nodes";
    DeclareModule "coffeescript/lib/coffeescript/scope" "Scope";
    DeclareModule "coffeescript" "CoffeeScript";
    DeclareConst "CoffeeScript" (TRef "CoffeeScriptStatic") None ].

(** ** Resolution of names *)

(** What a name of the file can stand for, as a type. *)
Inductive type_def : Type :=
| IsClass (c : class_decl)
| IsInterface (i : interface_decl)
| IsAlias (t : ty).

Definition ns_decl_name (d : ns_decl) : string :=
  match d with
  | NsInterface i => i_name i
  | NsAlias n _ => n
  | NsClass c => c_name c
  end.

Definition ns_decl_def (d : ns_decl) : type_def :=
  match d with
  | NsInterface i => IsInterface i
  | NsAlias _ t => IsAlias t
  | NsClass c => IsClass c
  end.

Fixpoint find_in_namespace (name : string) (body : list ns_decl) : option type_def :=
  match body with
  | [] => None
  | d :: rest =>
      if ns_decl_name d =? name then Some (ns_decl_def d)
      else find_in_namespace name rest
  end.

Fixpoint find_namespace (ns : string) (file : list top_decl) : option (list ns_decl) :=
  match file with
  | [] => None
  | DeclareNamespace n body :: rest =>
      if n =? ns then Some body else find_namespace ns rest
  | _ :: rest => find_namespace ns rest
  end.

(** A type declared at the top level: a class or an interface. *)
Fixpoint find_top (name : string) (file : list top_decl) : option type_def :=
  match file with
  | [] => None
  | DeclareClass c :: rest =>
      if c_name c =? name then Some (IsClass c) else find_top name rest
  | Interface i :: rest =>
      if i_name i =? name then Some (IsInterface i) else find_top name rest
  | _ :: rest => find_top name rest
  end.

(** The first namespace of the file that declares [name]. *)
Fixpoint find_in_namespaces (name : string) (file : list top_decl) : option type_def :=
  match file with
  | [] => None
  | DeclareNamespace _ body :: rest =>
      match find_in_namespace name body with
      | Some d => Some d
      | None => find_in_namespaces name rest
      end
  | _ :: rest => find_in_namespaces name rest
  end.

(** [ns.name] *)
Definition resolve_qualified (ns name : string) : option type_def :=
  match find_namespace ns index_d_ts with
  | Some body => find_in_namespace name body
  | None => None
  end.

(** A bare name: the namespace's own declarations come before the global
    ones.  No bare name of the file is declared twice
    ([declared_names_distinct]), so the order of the two lookups is not
    observable here. *)
Definition resolve (name : string) : option type_def :=
  match find_in_namespaces name index_d_ts with
  | Some d => Some d
  | None => find_top name index_d_ts
  end.

Definition resolve_class (name : string) : option class_decl :=
  match resolve name with
  | Some (IsClass c) => Some c
  | _ => None
  end.

(** ** Enumerations of the table *)

Fixpoint classes_of (body : list ns_decl) : list class_decl :=
  match body with
  | [] => []
  | NsClass c :: rest => c :: classes_of rest
  | _ :: rest => classes_of rest
  end.

(** The classes declared in namespace [Nodes]. *)
Definition nodes_classes : list class_decl := classes_of Nodes.

Definition top_decl_names (d : top_decl) : list string :=
  match d with
  | DeclareClass c => [c_name c]
  | DeclareNamespace n body => n :: map ns_decl_name body
  | Interface i => [i_name i]
  | DeclareModule _ _ => []
  | DeclareConst n _ _ => [n]
  end.

(** Every identifier the file declares (module names are string literals,
    not identifiers). *)
Definition declared_names : list string := flat_map top_decl_names index_d_ts.

Fixpoint distinct (l : list string) : bool :=
  match l with
  | [] => true
  | x :: rest => negb (existsb (String.eqb x) rest) && distinct rest
  end.

(** Every member of the file: those of the top-level classes and
    interfaces and those of the classes and interfaces of a namespace. *)
Definition ns_decl_members (d : ns_decl) : list member :=
  match d with
  | NsInterface i => i_members i
  | NsAlias _ _ => []
  | NsClass c => c_members c
  end.

Definition top_decl_members (d : top_decl) : list member :=
  match d with
  | DeclareClass c => c_members c
  | DeclareNamespace _ body => flat_map ns_decl_members body
  | Interface i => i_members i
  | DeclareModule _ _ => []
  | DeclareConst _ _ _ => []
  end.

Definition all_declared_members : list member := flat_map top_decl_members index_d_ts.

Definition is_method (m : member) : bool :=
  match m_sig m with
  | MethodSig _ _ => true
  | PropertySig _ => false
  end.

(** ** Inheritance *)

(** No [extends] chain is longer than the number of declarations. *)
Definition hierarchy_fuel : nat := length declared_names.

(** The class [name] followed by its superclasses, nearest first. *)
Fixpoint superclasses (fuel : nat) (name : string) : list class_decl :=
  match fuel with
  | O => []
  | S f =>
      match resolve_class name with
      | None => []
      | Some c =>
          c :: match c_extends c with
               | None => []
               | Some parent => superclasses f parent
               end
      end
  end.

(** [c] is [d] or extends it, directly or through other classes. *)
Definition subclass_of (c d : string) : bool :=
  existsb (fun a => c_name a =? d) (superclasses hierarchy_fuel c).

Definition declares (ms : list member) (name : string) : bool :=
  existsb (fun m => m_name m =? name) ms.

(** The members of an instance of [name]: its own, then those of its
    superclasses that it does not declare again. *)
Fixpoint class_members (fuel : nat) (name : string) : list member :=
  match fuel with
  | O => []
  | S f =>
      match resolve_class name with
      | None => []
      | Some c =>
          c_members c ++
          match c_extends c with
          | None => []
          | Some parent =>
              filter (fun m => negb (declares (c_members c) (m_name m)))
                     (class_members f parent)
          end
      end
  end.

Definition members_of_def (d : type_def) : list member :=
  match d with
  | IsClass c => class_members hierarchy_fuel (c_name c)
  | IsInterface i => i_members i
  | IsAlias _ => []
  end.

(** The members of the class or interface called [name]. *)
Definition members_of (name : string) : list member :=
  match resolve name with
  | Some d => members_of_def d
  | None => []
  end.

Definition find_member (name : string) (ms : list member) : option member :=
  find (fun m => m_name m =? name) ms.

(** The type of a member when it is read as a property: a method is a
    property holding a function. *)
Definition member_type (m : member) : ty :=
  match m_sig m with
  | PropertySig t => t
  | MethodSig params ret => TFun params ret
  end.

Definition member_binding (m : member) : binding :=
  Bind (m_name m) (m_optional m) (member_type m).

(** The declared type of property [prop] of class or interface [name]. *)
Definition property_type (name prop : string) : option ty :=
  match find_member prop (members_of name) with
  | Some m => match m_sig m with PropertySig t => Some t | MethodSig _ _ => None end
  | None => None
  end.

(** The declared parameters and result of method [meth] of [name]. *)
Definition method_sig (name meth : string) : option (list binding * ty) :=
  match find_member meth (members_of name) with
  | Some m => match m_sig m with MethodSig ps r => Some (ps, r) | PropertySig _ => None end
  | None => None
  end.

(** ** Modules *)

Fixpoint module_export (module : string) (file : list top_decl) : option string :=
  match file with
  | [] => None
  | DeclareModule n e :: rest => if n =? module then Some e else module_export module rest
  | _ :: rest => module_export module rest
  end.

Fixpoint find_const (name : string) (file : list top_decl) : option (ty * option string) :=
  match file with
  | [] => None
  | DeclareConst n t init :: rest =>
      if n =? name then Some (t, init) else find_const name rest
  | _ :: rest => find_const name rest
  end.

(** What [import x = require(module)] gives: a value of a declared type
    when the exported name is a constant, the type itself when it is a
    class. *)
Inductive export : Type :=
| ExportsValue (t : ty)
| ExportsClass (c : class_decl)
| ExportsNamespace (body : list ns_decl).

Definition module_exports (module : string) : option export :=
  match module_export module index_d_ts with
  | None => None
  | Some e =>
      match find_const e index_d_ts with
      | Some (t, _) => Some (ExportsValue t)
      | None =>
          match find_top e index_d_ts with
          | Some (IsClass c) => Some (ExportsClass c)
          | _ =>
              match find_namespace e index_d_ts with
              | Some body => Some (ExportsNamespace body)
              | None => None
              end
          end
      end
  end.

Definition is_alias (d : type_def) : bool :=
  match d with
  | IsAlias _ => true
  | _ => false
  end.

(** ** Queries used in the statements *)

(** The AST node classes: the classes of [Nodes] that are [Base] or extend
    it. *)
Definition node_classes : list class_decl :=
  filter (fun c => subclass_of (c_name c) "Base") nodes_classes.

(** The members declared by an interface, at the top level or in a
    namespace: the functions of the file that belong to no class. *)
Definition ns_decl_interface_members (d : ns_decl) : list member :=
  match d with
  | NsInterface i => i_members i
  | _ => []
  end.

Definition top_decl_interface_members (d : top_decl) : list member :=
  match d with
  | Interface i => i_members i
  | DeclareNamespace _ body => flat_map ns_decl_interface_members body
  | _ => []
  end.

Definition free_functions : list member :=
  filter is_method (flat_map top_decl_interface_members index_d_ts).

Definition has_impl (m : member) : bool :=
  match m_impl m with
  | Some _ => true
  | None => false
  end.

Definition const_inits (d : top_decl) : list (option string) :=
  match d with
  | DeclareConst _ _ init => [init]
  | _ => []
  end.

(** A member through which a string can be read off an instance. *)
Definition yields_string (m : member) : bool :=
  match m_sig m with
  | PropertySig TString => true
  | MethodSig _ TString => true
  | _ => false
  end.

(** [needle] occurs in [text]. *)
Fixpoint mentions (needle text : string) : bool :=
  String.prefix needle text ||
  match text with
  | EmptyString => false
  | String _ rest => mentions needle rest
  end.

(** The type mentions a class or interface by name. *)
Definition is_reference (t : ty) : bool :=
  match t with
  | TRef _ | TQual _ _ => true
  | _ => false
  end.

Definition top_decl_classes (d : top_decl) : list class_decl :=
  match d with
  | DeclareClass c => [c]
  | DeclareNamespace _ body => classes_of body
  | _ => []
  end.

(** Every class the file declares. *)
Definition all_classes : list class_decl := flat_map top_decl_classes index_d_ts.

(** No class with an [extends] clause, [owner] apart, declares a member
    called [n]. *)
Definition not_redeclared (owner n : string) : bool :=
  forallb (fun c => (c_name c =? owner)
                    || match c_extends c with
                       | None => true
                       | Some _ => negb (declares (c_members c) n)
                       end) all_classes.

(** The last class of every [extends] chain extends nothing: the chains
    are not cut short by [hierarchy_fuel]. *)
Definition chain_complete (c : class_decl) : bool :=
  match last (map c_extends (superclasses hierarchy_fuel (c_name c))) (Some "") with
  | None => true
  | Some _ => false
  end.

(** ** JavaScript values and what a declared type says of them *)

Section Values.

(** IEEE doubles are left abstract: nothing in the file computes with a
    number. *)
Variable number : Type.

(** An object is the list of its properties, own and inherited ones
    alike; a function is opaque, the file gives none a behaviour. *)
#[local] Unset Elimination Schemes.
Inductive value : Type :=
| VUndefined
| VNull
| VBool (b : bool)
| VNumber (n : number)
| VString (s : string)
| VArray (items : list value)
| VObject (props : list (string * value))
| VFunction.
#[local] Set Elimination Schemes.

(** [o[name]] *)
Fixpoint get_prop (props : list (string * value)) (name : string) : option value :=
  match props with
  | [] => None
  | (k, x) :: rest => if k =? name then Some x else get_prop rest name
  end.

Definition get_field (v : value) (name : string) : option value :=
  match v with
  | VObject props => get_prop props name
  | _ => None
  end.

Definition is_undefined (v : value) : bool :=
  match v with
  | VUndefined => true
  | _ => false
  end.

(** A value meets a binding [name: t] when it holds [name] at type [t];
    [name?: t] may also be absent or [undefined]. *)
Definition meets (check : value -> ty -> bool) (v : value) (b : binding) : bool :=
  match get_field v (b_name b) with
  | Some x => check x (b_type b) || (b_optional b && is_undefined x)
  | None => b_optional b
  end.

Definition has_shape (check : value -> ty -> bool) (v : value) (bs : list binding) : bool :=
  match v with
  | VObject _ => forallb (meets check v) bs
  | _ => false
  end.

(** Structural typing: a value has a class or interface type when it is an
    object that holds every declared member at its declared type.  [fuel]
    bounds the number of type constructors and names that are unfolded. *)
Fixpoint has_type (fuel : nat) (v : value) (t : ty) : bool :=
  match fuel with
  | O => false
  | S f =>
      let has_def (d : option type_def) : bool :=
        match d with
        | Some (IsAlias t') => has_type f v t'
        | Some d' => has_shape (has_type f) v (map member_binding (members_of_def d'))
        | None => false
        end in
      match t with
      | TAny => true
      | TString => match v with VString _ => true | _ => false end
      | TNumber => match v with VNumber _ => true | _ => false end
      | TBoolean => match v with VBool _ => true | _ => false end
      | TVoid => is_undefined v
      | TUndefined => is_undefined v
      | TNull => match v with VNull => true | _ => false end
      | TTrue => match v with VBool true => true | _ => false end
      | TStrLit s => match v with VString s' => s' =? s | _ => false end
      | TRef name => has_def (resolve name)
      | TQual ns name => has_def (resolve_qualified ns name)
      | TArray elem =>
          match v with
          | VArray items => forallb (fun x => has_type f x elem) items
          | _ => false
          end
      | TUnion alts => existsb (fun a => has_type f v a) alts
      | TObject props => has_shape (has_type f) v props
      | TFun _ _ => match v with VFunction => true | _ => false end
      end
  end.

(** A call [f(args)] is accepted against the parameter list of [f]: a
    trailing optional parameter may be left out. *)
Fixpoint accepts (fuel : nat) (params : list binding) (args : list value) : bool :=
  match params, args with
  | [], [] => true
  | [], _ :: _ => false
  | p :: ps, [] => b_optional p && accepts fuel ps []
  | p :: ps, a :: rest =>
      (has_type fuel a (b_type p) || (b_optional p && is_undefined a))
      && accepts fuel ps rest
  end.

(** [v] is a value of the declared type [t]. *)
Definition typed (v : value) (t : ty) : Prop :=
  exists fuel, has_type fuel v t = true.

End Values.

Arguments VUndefined {number}.
Arguments VNull {number}.
Arguments VBool {number} b.
Arguments VNumber {number} n.
Arguments VString {number} s.
Arguments VArray {number} items.
Arguments VObject {number} props.
Arguments VFunction {number}.
Arguments get_prop {number} props name.
Arguments get_field {number} v name.
Arguments is_undefined {number} v.
Arguments meets {number} check v b.
Arguments has_shape {number} check v bs.
Arguments has_type {number} fuel v t.
Arguments accepts {number} fuel params args.
Arguments typed {number} v t.

(** *** Sample values *)

Definition sample_location : value nat :=
  VObject [ ("first_line", VNumber 0); ("first_column", VNumber 0);
            ("last_line", VNumber 0); ("last_column", VNumber 1) ].

(** The properties every node has: those of [Base]. *)
Definition sample_base_props : list (string * value nat) :=
  [ ("children", VArray []);
    ("compiledComments", VArray []);
    ("locationData", sample_location);
    ("contains", VFunction);
    ("lastNode", VFunction);
    ("toString", VFunction);
    ("eachChild", VFunction);
    ("traverseChildren", VFunction);
    ("replaceInContext", VFunction);
    ("unwrapAll", VFunction);
    ("isStatement", VFunction);
    ("includeCommentFragments", VFunction);
    ("jumps", VFunction);
    ("shouldCache", VFunction);
    ("isChainable", VFunction);
    ("isAssignable", VFunction);
    ("isNumber", VFunction);
    ("assigns", VFunction);
    ("joinFragmentArrays", VFunction) ].

(** The literal [42], as [NumberLiteral] would hold it. *)
Definition sample_literal : value nat :=
  VObject (("value", VString "42") :: sample_base_props).

(** A code fragment with the two declared members and nothing else. *)
Definition sample_fragment : value nat :=
  VObject [ ("locationData", sample_location); ("toString", VFunction) ].


(** A scope with one variable and no [utilities]. *)
Definition sample_scope : value nat :=
  VObject [ ("variables", VArray [ VObject [("name", VString "x"); ("type", VString "var")] ]);
            ("positions", VObject [("x", VNumber 0)]) ].

(** The operation [1 + 2] as the declarations type it. *)
Definition sample_op : value nat :=
  VObject (("first", VString "1") :: ("sencond", VString "2") :: sample_base_props).

(** ** Further queries *)

(** Equality of two type expressions. *)
Fixpoint ty_eqb (a b : ty) {struct a} : bool :=
  match a, b with
  | TAny, TAny | TString, TString | TNumber, TNumber | TBoolean, TBoolean
  | TVoid, TVoid | TUndefined, TUndefined | TNull, TNull | TTrue, TTrue => true
  | TStrLit s, TStrLit s' => s =? s'
  | TRef n, TRef n' => n =? n'
  | TQual ns n, TQual ns' n' => (ns =? ns') && (n =? n')
  | TArray e, TArray e' => ty_eqb e e'
  | TUnion l, TUnion l' =>
      (fix all2 (l l' : list ty) {struct l} : bool :=
         match l, l' with
         | [], [] => true
         | x :: r, y :: r' => ty_eqb x y && all2 r r'
         | _, _ => false
         end) l l'
  | TObject ps, TObject ps' =>
      (fix all2 (l l' : list binding) {struct l} : bool :=
         match l, l' with
         | [], [] => true
         | Bind n o t :: r, Bind n' o' t' :: r' =>
             (n =? n') && Bool.eqb o o' && ty_eqb t t' && all2 r r'
         | _, _ => false
         end) ps ps'
  | TFun ps r, TFun ps' r' =>
      (fix all2 (l l' : list binding) {struct l} : bool :=
         match l, l' with
         | [], [] => true
         | Bind n o t :: r, Bind n' o' t' :: r' =>
             (n =? n') && Bool.eqb o o' && ty_eqb t t' && all2 r r'
         | _, _ => false
         end) ps ps'
      && ty_eqb r r'
  | _, _ => false
  end.



(** The string literals a type is made of. *)
Definition str_lits (t : ty) : list string :=
  match t with
  | TStrLit s => [s]
  | TUnion alts => flat_map (fun a => match a with TStrLit s => [s] | _ => [] end) alts
  | _ => []
  end.

(** The names of the properties (not methods) the classes declare. *)
Definition declared_properties : list string :=
  map m_name (filter (fun m => negb (is_method m)) (flat_map c_members all_classes)).



(** [has_type] does not look into a function: two function types accept
    the same values. *)
Definition same_values (t' t : ty) : bool :=
  match t', t with
  | TFun _ _, TFun _ _ => true
  | _, _ => ty_eqb t' t
  end.

(** Every member of [sup] has in [sub] a member of the same name and
    optionality whose type accepts the same values. *)
Definition covers (sub sup : list member) : bool :=
  forallb (fun m =>
             existsb (fun m' => (m_name m' =? m_name m)
                                && Bool.eqb (m_optional m') (m_optional m)
                                && same_values (member_type m') (member_type m)) sub) sup.






(** An options object with the four required members and no [scope]. *)
Definition sample_options : value nat :=
  VObject [ ("index", VNumber 0); ("level", VNumber 1); ("indent", VNumber 2);
            ("sharedScope", VBool false) ].

(** The function [(x) -> x], as [Code] would hold it, without parameters
    and with an empty body. *)
Definition sample_glyph : value nat :=
  VObject (("glyph", VString "->") :: sample_base_props).

Definition sample_empty_block : value nat :=
  VObject (("expressions", VArray []) :: sample_base_props).

Definition sample_code : value nat :=
  VObject (("params", VArray []) :: ("body", sample_empty_block)
           :: ("funcGlyph", sample_glyph) :: ("bound", VBool false)
           :: ("isGenerator", VBool false) :: ("isAsync", VBool false)
           :: ("isMethod", VBool false) :: sample_base_props).

(** The value [42]: a [Value] whose base is the literal and that has no
    property accesses. *)
Definition sample_value : value nat :=
  VObject (("base", sample_literal) :: ("properties", VArray [])
           :: ("isDefaultValue", VBool false)
           :: ("hasProperties", VFunction) :: ("isArray", VFunction)
           :: ("isRange", VFunction) :: ("isString", VFunction)
           :: ("isRegex", VFunction) :: ("isUndefined", VFunction)
           :: ("isNull", VFunction) :: ("isBoolean", VFunction)
           :: ("isAtomic", VFunction) :: ("isNotCallable", VFunction)
           :: ("isObject", VFunction) :: ("isSplice", VFunction)
           :: ("looksStatic", VFunction) :: sample_base_props).

(** The assignment [export x = 42]. *)
Definition sample_assign : value nat :=
  VObject (("variable", sample_value) :: ("value", sample_value)
           :: ("context", VString "=")
           :: ("options", VObject [ ("param", VString ""); ("subpattern", VString "");
                                    ("operatorToken", VString "=");
                                    ("moduleDeclaration", VString "export") ])
           :: sample_base_props).

(** * Properties *)

(** ** Lookups *)

Lemma classes_of_In (c : class_decl) (body : list ns_decl) :
  In (NsClass c) body -> In c (classes_of body).
Proof.
  induction body as [|d body IH]; simpl; [tauto|].
  intros [->|H]; [now left|].
  destruct d; simpl; auto.
Qed.

Lemma find_in_namespace_sound (name : string) (body : list ns_decl) (d : type_def) :
  find_in_namespace name body = Some d ->
  exists nd, In nd body /\ ns_decl_name nd = name /\ ns_decl_def nd = d.
Proof.
  induction body as [|nd body IH]; simpl; [discriminate|].
  destruct (ns_decl_name nd =? name) eqn:E.
  - intros [= <-]. exists nd. apply String.eqb_eq in E. auto.
  - intros H. destruct (IH H) as (nd' & Hin & Hn & Hd). exists nd'. auto.
Qed.

Lemma find_in_namespace_class (name : string) (body : list ns_decl) (c : class_decl) :
  find_in_namespace name body = Some (IsClass c) ->
  In c (classes_of body) /\ c_name c = name.
Proof.
  intros H. destruct (find_in_namespace_sound _ _ _ H) as (nd & Hin & Hn & Hd).
  destruct nd; simpl in Hd; try discriminate.
  injection Hd as ->. split; [now apply classes_of_In | exact Hn].
Qed.

Lemma find_in_namespaces_class (name : string) (file : list top_decl) (c : class_decl) :
  find_in_namespaces name file = Some (IsClass c) ->
  In c (flat_map top_decl_classes file) /\ c_name c = name.
Proof.
  induction file as [|d file IH]; simpl; [discriminate|].
  intros H. rewrite in_app_iff.
  destruct d; simpl; try (destruct (IH H); tauto).
  destruct (find_in_namespace name body) as [d'|] eqn:E.
  - injection H as ->. destruct (find_in_namespace_class _ _ _ E). tauto.
  - destruct (IH H). tauto.
Qed.

Lemma find_top_class (name : string) (file : list top_decl) (c : class_decl) :
  find_top name file = Some (IsClass c) ->
  In c (flat_map top_decl_classes file) /\ c_name c = name.
Proof.
  induction file as [|d file IH]; simpl; [discriminate|].
  intros H. rewrite in_app_iff.
  destruct d; simpl; try (destruct (IH H); tauto).
  - destruct (c_name c0 =? name) eqn:E.
    + injection H as ->. apply String.eqb_eq in E. tauto.
    + destruct (IH H). tauto.
  - destruct (i_name i =? name); [discriminate|]. destruct (IH H). tauto.
Qed.

(** A name that resolves to a class resolves to a class of the file that
    bears this name. *)
Lemma resolve_class_sound (name : string) (c : class_decl) :
  resolve_class name = Some c -> In c all_classes /\ c_name c = name.
Proof.
  unfold resolve_class, resolve, all_classes.
  destruct (find_in_namespaces name index_d_ts) as [d|] eqn:E.
  - destruct d; try discriminate. intros [= ->].
    now apply find_in_namespaces_class.
  - destruct (find_top name index_d_ts) as [d|] eqn:E'; [|discriminate].
    destruct d; try discriminate. intros [= ->].
    now apply find_top_class.
Qed.

Lemma resolve_class_resolve (name : string) (c : class_decl) :
  resolve_class name = Some c -> resolve name = Some (IsClass c).
Proof.
  unfold resolve_class. destruct (resolve name) as [[]|]; congruence.
Qed.

(** The names of the file are pairwise distinct: a bare name has one
    meaning, whichever scope it is looked up from. *)
Lemma declared_names_distinct : distinct declared_names = true.
Proof. vm_compute. reflexivity. Qed.

(** ** The [extends] chain *)

Lemma extends_chains_complete : forallb chain_complete all_classes = true.
Proof. vm_compute. reflexivity. Qed.

Lemma subclass_of_resolves (c d : string) :
  subclass_of c d = true -> exists cd, resolve_class c = Some cd.
Proof.
  unfold subclass_of. generalize hierarchy_fuel as fuel.
  intros [|f]; simpl; [discriminate|].
  destruct (resolve_class c) as [cd|]; [eauto | discriminate].
Qed.

Lemma subclass_of_declared (c d : string) :
  subclass_of c d = true -> In c (map c_name all_classes).
Proof.
  intros H. destruct (subclass_of_resolves _ _ H) as (cd & Hcd).
  destruct (resolve_class_sound _ _ Hcd) as (Hin & <-).
  now apply in_map.
Qed.

Lemma members_of_class (c : string) (cd : class_decl) :
  resolve_class c = Some cd -> members_of c = class_members hierarchy_fuel c.
Proof.
  intros H. unfold members_of. rewrite (resolve_class_resolve _ _ H). simpl.
  now destruct (resolve_class_sound _ _ H) as (_ & ->).
Qed.

Lemma find_member_app (n : string) (l1 l2 : list member) :
  find_member n (l1 ++ l2) =
  match find_member n l1 with
  | Some m => Some m
  | None => find_member n l2
  end.
Proof.
  unfold find_member. induction l1 as [|m l1 IH]; simpl; [reflexivity|].
  now destruct (m_name m =? n).
Qed.

Lemma find_member_declares (n : string) (ms : list member) :
  declares ms n = false -> find_member n ms = None.
Proof.
  unfold declares, find_member. induction ms as [|m ms IH]; simpl; [reflexivity|].
  destruct (m_name m =? n); simpl; [discriminate | exact IH].
Qed.

(** Filtering out the members a subclass declares again does not hide a
    member it does not declare. *)
Lemma find_member_not_hidden (n : string) (own inherited : list member) :
  declares own n = false ->
  find_member n (filter (fun m => negb (declares own (m_name m))) inherited)
  = find_member n inherited.
Proof.
  intros Hown. unfold find_member.
  induction inherited as [|m ms IH]; simpl; [reflexivity|].
  destruct (m_name m =? n) eqn:E.
  - apply String.eqb_eq in E. rewrite E, Hown. simpl.
    now rewrite E, String.eqb_refl.
  - destruct (negb (declares own (m_name m))); simpl; [rewrite E|]; exact IH.
Qed.

(** A class that reaches [d] through [extends] without being [d] has an
    [extends] clause. *)
Lemma subclass_of_extends (c d : string) (cd : class_decl) :
  subclass_of c d = true -> resolve_class c = Some cd -> c <> d ->
  exists parent, c_extends cd = Some parent.
Proof.
  unfold subclass_of. intros H Hc Hne.
  change hierarchy_fuel with (S (pred hierarchy_fuel)) in H.
  simpl superclasses in H. rewrite Hc in H. simpl existsb in H.
  destruct (resolve_class_sound _ _ Hc) as (_ & Hname).
  assert (E : (c_name cd =? d) = false) by (apply String.eqb_neq; congruence).
  rewrite E in H. simpl in H.
  destruct (c_extends cd) as [p|]; [eauto | discriminate].
Qed.

(** A member that [owner] declares and no subclass declares again is found
    unchanged in every class whose [extends] chain reaches [owner]. *)
Lemma inherited_unchanged (owner : class_decl) (n : string) :
  resolve_class (c_name owner) = Some owner ->
  not_redeclared (c_name owner) n = true ->
  declares (c_members owner) n = true ->
  forall fuel c,
    existsb (fun a => c_name a =? c_name owner) (superclasses fuel c) = true ->
    find_member n (class_members fuel c) = find_member n (c_members owner).
Proof.
  intros Hres Hsole Hdecl.
  induction fuel as [|f IH]; intros c; simpl; [discriminate|].
  destruct (resolve_class c) as [cd|] eqn:Hc; [|discriminate].
  destruct (resolve_class_sound _ _ Hc) as (Hin & Hname).
  simpl. rewrite find_member_app.
  destruct (c_name cd =? c_name owner) eqn:E; simpl.
  - intros _. apply String.eqb_eq in E.
    assert (cd = owner) as -> by congruence.
    destruct (find_member n (c_members owner)) eqn:F; [reflexivity|].
    unfold declares in Hdecl. apply existsb_exists in Hdecl as (m & Hm & Hmn).
    unfold find_member in F. now rewrite (find_none _ _ F _ Hm) in Hmn.
  - unfold not_redeclared in Hsole. rewrite forallb_forall in Hsole.
    specialize (Hsole _ Hin). rewrite E in Hsole. simpl in Hsole.
    destruct (c_extends cd) as [p|]; simpl; [|discriminate].
    apply negb_true_iff in Hsole.
    rewrite (find_member_declares _ _ Hsole).
    intros H. rewrite find_member_not_hidden by exact Hsole. now apply IH.
Qed.

Lemma find_member_In (n : string) (ms : list member) (m : member) :
  find_member n ms = Some m -> In m ms /\ m_name m = n.
Proof.
  unfold find_member. intros H. apply find_some in H as (Hin & E).
  apply String.eqb_eq in E. auto.
Qed.

(** ** Typing of values *)

Section Typing.
Variable number : Type.
Implicit Types (v x : value number) (t : ty).

Lemma has_type_ref (f : nat) v (name : string) :
  has_type (S f) v (TRef name) =
  match resolve name with
  | Some (IsAlias t') => has_type f v t'
  | Some d' => has_shape (has_type f) v (map member_binding (members_of_def d'))
  | None => false
  end.
Proof. reflexivity. Qed.


Lemma has_type_fuel (fuel : nat) v t :
  has_type fuel v t = true -> exists f, fuel = S f.
Proof. destruct fuel as [|f]; [discriminate | eauto]. Qed.

Lemma has_type_string (fuel : nat) v :
  has_type fuel v TString = true -> exists s, v = VString s.
Proof. destruct fuel; [discriminate|]. destruct v; try discriminate. eauto. Qed.

Lemma has_type_number (fuel : nat) v :
  has_type fuel v TNumber = true -> exists n, v = VNumber n.
Proof. destruct fuel; [discriminate|]. destruct v; try discriminate. eauto. Qed.

Lemma has_type_array (fuel : nat) v (elem : ty) :
  has_type fuel v (TArray elem) = true ->
  exists items, v = VArray items /\ Forall (fun x => typed x elem) items.
Proof.
  destruct fuel as [|f]; [discriminate|]. destruct v; try discriminate.
  simpl. intros H. exists items. split; [reflexivity|].
  rewrite forallb_forall in H. apply Forall_forall.
  intros x Hx. exists f. now apply H.
Qed.

(** A value of a given shape holds every required binding of the shape. *)
Lemma has_shape_required (check : value number -> ty -> bool) v (bs : list binding) (b : binding) :
  has_shape check v bs = true -> In b bs -> b_optional b = false ->
  exists x, get_field v (b_name b) = Some x /\ check x (b_type b) = true.
Proof.
  unfold has_shape. destruct v; try discriminate.
  intros H Hin Hopt. rewrite forallb_forall in H. specialize (H _ Hin).
  unfold meets in H. rewrite Hopt in H.
  destruct (get_field (VObject props) (b_name b)) as [x|]; [|discriminate].
  exists x. split; [reflexivity|]. now rewrite orb_false_r in H.
Qed.

Lemma has_shape_incl (check : value number -> ty -> bool) v (bs bs' : list binding) :
  incl bs' bs -> has_shape check v bs = true -> has_shape check v bs' = true.
Proof.
  unfold has_shape. destruct v; try discriminate.
  intros Hincl H. rewrite forallb_forall in *. auto.
Qed.

Lemma typed_string v : typed v TString -> exists s, v = VString s.
Proof. intros [fuel H]. exact (has_type_string _ _ H). Qed.

Lemma typed_number v : typed v TNumber -> exists n, v = VNumber n.
Proof. intros [fuel H]. exact (has_type_number _ _ H). Qed.

Lemma typed_array v (elem : ty) :
  typed v (TArray elem) ->
  exists items, v = VArray items /\ Forall (fun x => typed x elem) items.
Proof. intros [fuel H]. exact (has_type_array _ _ _ H). Qed.

(** A value of an object type holds every required property of the type. *)
Lemma typed_object v (props : list binding) (n : string) (t : ty) :
  typed v (TObject props) -> In (req n t) props ->
  exists x, get_field v n = Some x /\ typed x t.
Proof.
  intros [fuel H] Hin. destruct fuel as [|f]; [discriminate|].
  change (has_shape (has_type f) v props = true) in H.
  destruct (has_shape_required _ _ _ _ H Hin eq_refl) as (x & Hx & Ht).
  exists x. split; [exact Hx | now exists f].
Qed.

(** An instance of a class or interface holds every required member, the
    inherited ones included, at the declared type. *)
Lemma typed_instance v (c n : string) (d : type_def) (m : member) :
  resolve c = Some d -> is_alias d = false ->
  typed v (TRef c) ->
  find_member n (members_of c) = Some m -> m_optional m = false ->
  exists x, get_field v n = Some x /\ typed x (member_type m).
Proof.
  intros Hc Hd [fuel H] Hm Hopt. destruct fuel as [|f]; [discriminate|].
  rewrite has_type_ref, Hc in H. unfold members_of in Hm. rewrite Hc in Hm.
  destruct (find_member_In _ _ _ Hm) as (Hin & <-).
  assert (Hs : has_shape (has_type f) v (map member_binding (members_of_def d)) = true)
    by (destruct d; [exact H | exact H | discriminate]).
  destruct (has_shape_required _ _ _ _ Hs (in_map member_binding _ _ Hin) Hopt)
    as (x & Hx & Ht).
  exists x. split; [exact Hx | now exists f].
Qed.

(** Typing against a class only looks at the members of the class. *)
Lemma has_type_class (f : nat) v (c : string) (cd : class_decl) :
  resolve_class c = Some cd ->
  has_type (S f) v (TRef c) = has_shape (has_type f) v (map member_binding (members_of c)).
Proof.
  intros Hc. rewrite has_type_ref. unfold members_of.
  now rewrite (resolve_class_resolve _ _ Hc).
Qed.

(** Width subtyping: an instance of a class is an instance of any class
    all of whose members it has. *)
Lemma typed_upcast v (c d : string) (cd dd : class_decl) :
  resolve_class c = Some cd -> resolve_class d = Some dd ->
  incl (members_of d) (members_of c) ->
  typed v (TRef c) -> typed v (TRef d).
Proof.
  intros Hc Hd Hincl [fuel H]. destruct fuel as [|f]; [discriminate|].
  exists (S f). rewrite (has_type_class _ _ _ _ Hc) in H. rewrite (has_type_class _ _ _ _ Hd).
  apply has_shape_incl with (2 := H).
  intros b Hb. apply in_map_iff in Hb as (m & <- & Hm). apply in_map. now apply Hincl.
Qed.

(** Only objects have a class type. *)
Lemma class_instance_is_object v (c : string) (cd : class_decl) :
  resolve_class c = Some cd -> typed v (TRef c) -> exists props, v = VObject props.
Proof.
  intros Hc [fuel H]. destruct fuel as [|f]; [discriminate|].
  rewrite (has_type_class _ _ _ _ Hc) in H.
  unfold has_shape in H. destruct v; try discriminate. eauto.
Qed.

End Typing.

(** ** Facts of the table *)

Lemma resolve_class_Base : resolve_class "Base" = Some Base.
Proof. vm_compute. reflexivity. Qed.

Lemma resolve_class_Literal : resolve_class "Literal" = Some Literal.
Proof. vm_compute. reflexivity. Qed.

Lemma members_of_Literal : members_of "Literal" = pub "value" TString :: members_of "Base".
Proof. vm_compute. reflexivity. Qed.

(** The classes that are [Literal] or extend it. *)
Lemma literal_family (c : string) :
  subclass_of c "Literal" = true ->
  In c [ "Literal"; "NumberLiteral"; "InfinityLiteral"; "NaNLiteral"; "StringLiteral";
         "RegexLiteral"; "PassthroughLiteral"; "IdentifierLiteral"; "CSXTag";
         "PropertyName"; "StatementLiteral"; "ThisLiteral"; "UndefinedLiteral";
         "NullLiteral"; "BooleanLiteral" ].
Proof.
  intros H. pose proof (subclass_of_declared _ _ H) as Hin.
  set (family := [ "Literal"; "NumberLiteral"; "InfinityLiteral"; "NaNLiteral"; "StringLiteral";
         "RegexLiteral"; "PassthroughLiteral"; "IdentifierLiteral"; "CSXTag";
         "PropertyName"; "StatementLiteral"; "ThisLiteral"; "UndefinedLiteral";
         "NullLiteral"; "BooleanLiteral" ]).
  assert (T : forallb (fun n => implb (subclass_of n "Literal") (existsb (String.eqb n) family))
                      (map c_name all_classes) = true)
    by (vm_compute; reflexivity).
  rewrite forallb_forall in T. specialize (T _ Hin). rewrite H in T.
  change (existsb (String.eqb c) family = true) in T.
  apply existsb_exists in T as (n & Hn & E). apply String.eqb_eq in E. now subst n.
Qed.

(** A literal class declares nothing of its own below [Literal]. *)
Lemma literal_family_members (c : string) :
  subclass_of c "Literal" = true -> members_of c = members_of "Literal".
Proof.
  intros H. apply literal_family in H. simpl in H.
  repeat (destruct H as [<-|H]; [vm_compute; reflexivity|]).
  contradiction.
Qed.

Lemma subclass_of_Literal_Base (c : string) :
  subclass_of c "Literal" = true -> subclass_of c "Base" = true.
Proof.
  intros H. apply literal_family in H. simpl in H.
  repeat (destruct H as [<-|H]; [vm_compute; reflexivity|]).
  contradiction.
Qed.

(** ** The claims *)

(** C2: every class that is [Base] or extends it has the members
    [children: ChildKind[]] and [locationData: LocationData] exactly as
    [Base] declares them, no class other than [Base] declares either of
    them again, and every instance holds a [children] array of child kinds
    and a [locationData] of the [LocationData] shape. *)
Theorem every_node_has_children_and_locationData (c : string) :
  subclass_of c "Base" = true ->
  find_member "children" (members_of c) = Some (pub "children" (TArray (TRef "ChildKind")))
  /\ find_member "locationData" (members_of c)
     = Some (pub "locationData" (TRef "LocationData"))
  /\ (forall cd, resolve_class c = Some cd -> c <> "Base" ->
        declares (c_members cd) "children" = false
        /\ declares (c_members cd) "locationData" = false)
  /\ (forall (number : Type) (v : value number), typed v (TRef c) ->
        (exists kinds, get_field v "children" = Some (VArray kinds)
                       /\ Forall (fun k => typed k (TRef "ChildKind")) kinds)
        /\ (exists l, get_field v "locationData" = Some l
                      /\ typed l (TRef "LocationData"))).
Proof.
  intros H. destruct (subclass_of_resolves _ _ H) as (cd & Hc).
  assert (Hch : find_member "children" (members_of c)
                = Some (pub "children" (TArray (TRef "ChildKind")))).
  { rewrite (members_of_class _ _ Hc).
    rewrite (inherited_unchanged Base "children" resolve_class_Base);
      [reflexivity | vm_compute; reflexivity | reflexivity | exact H]. }
  assert (Hloc : find_member "locationData" (members_of c)
                 = Some (pub "locationData" (TRef "LocationData"))).
  { rewrite (members_of_class _ _ Hc).
    rewrite (inherited_unchanged Base "locationData" resolve_class_Base);
      [reflexivity | vm_compute; reflexivity | reflexivity | exact H]. }
  split; [exact Hch|]. split; [exact Hloc|]. split.
  - intros cd' Hcd' Hne. destruct (resolve_class_sound _ _ Hcd') as (Hin & Hname).
    destruct (subclass_of_extends _ _ _ H Hcd' Hne) as (p & Hp).
    assert (S1 : not_redeclared "Base" "children" = true) by (vm_compute; reflexivity).
    assert (S2 : not_redeclared "Base" "locationData" = true) by (vm_compute; reflexivity).
    unfold not_redeclared in S1, S2. rewrite forallb_forall in S1, S2.
    specialize (S1 _ Hin). specialize (S2 _ Hin).
    assert (E : (c_name cd' =? "Base") = false) by (apply String.eqb_neq; congruence).
    rewrite E, Hp in S1, S2. simpl in S1, S2.
    split; now apply negb_true_iff.
  - intros number v Hv. split.
    + destruct (typed_instance _ v c "children" _ _ (resolve_class_resolve _ _ Hc)
                  eq_refl Hv Hch eq_refl) as (x & Hx & Ht).
      apply typed_array in Ht as (kinds & -> & Hk). eauto.
    + destruct (typed_instance _ v c "locationData" _ _ (resolve_class_resolve _ _ Hc)
                  eq_refl Hv Hloc eq_refl) as (x & Hx & Ht).
      eauto.
Qed.

Lemma every_node_has_children_and_locationData_witness :
  subclass_of "CSXTag" "Base" = true
  /\ typed sample_literal (TRef "CSXTag")
  /\ exists l, get_field sample_literal "locationData" = Some l
               /\ typed l (TRef "LocationData").
Proof.
  assert (H : subclass_of "CSXTag" "Base" = true) by (vm_compute; reflexivity).
  assert (T : typed sample_literal (TRef "CSXTag")) by (exists 5; vm_compute; reflexivity).
  split; [exact H|]. split; [exact T|].
  exact (proj2 (proj2 (proj2 (proj2 (every_node_has_children_and_locationData "CSXTag" H)))
                  nat sample_literal T)).
Defined.

(** C8: in every class that is [Base] or extends it, [contains] is the
    method [Base] declares, with result type [true | undefined]; a value of
    that type is [true] or [undefined], never [false]. *)
Theorem contains_never_returns_false (c : string) :
  subclass_of c "Base" = true ->
  method_sig c "contains"
  = Some ([req "pred" (TRef "Base")], TUnion [TTrue; TUndefined])
  /\ (forall (number : Type) (r : value number),
        typed r (TUnion [TTrue; TUndefined]) ->
        (r = VBool true \/ r = VUndefined) /\ r <> VBool false).
Proof.
  intros H. destruct (subclass_of_resolves _ _ H) as (cd & Hc). split.
  - unfold method_sig. rewrite (members_of_class _ _ Hc).
    rewrite (inherited_unchanged Base "contains" resolve_class_Base);
      [reflexivity | vm_compute; reflexivity | reflexivity | exact H].
  - intros number r [fuel Hr]. destruct fuel as [|f]; [discriminate|].
    simpl in Hr. destruct f as [|f]; [discriminate|].
    destruct r as [| |[]| | | | |]; simpl in Hr; try discriminate;
      (split; [auto | discriminate]).
Qed.

Lemma contains_never_returns_false_witness :
  subclass_of "Op" "Base" = true
  /\ typed (@VUndefined nat) (TUnion [TTrue; TUndefined])
  /\ @VUndefined nat <> VBool false.
Proof.
  assert (H : subclass_of "Op" "Base" = true) by (vm_compute; reflexivity).
  assert (T : typed (@VUndefined nat) (TUnion [TTrue; TUndefined]))
    by (exists 2; vm_compute; reflexivity).
  split; [exact H|]. split; [exact T|].
  exact (proj2 (proj2 (contains_never_returns_false "Op" H) nat VUndefined T)).
Defined.

(** C5: the chain of [NumberLiteral] is [NumberLiteral], [Literal], [Base];
    the literal classes named in the claim all extend [Literal]; and a class
    that is [Literal] or extends it also extends [Base], has the property
    [value: string], and each of its instances is an instance of [Literal]
    and of [Base] that holds a string in [value]. *)
Theorem literal_subclasses_are_literals (c : string) :
  subclass_of c "Literal" = true ->
  map c_name (superclasses hierarchy_fuel "NumberLiteral")
  = ["NumberLiteral"; "Literal"; "Base"]
  /\ forallb (fun n => subclass_of n "Literal")
       [ "NumberLiteral"; "InfinityLiteral"; "NaNLiteral"; "StringLiteral";
         "IdentifierLiteral"; "CSXTag"; "BooleanLiteral" ] = true
  /\ subclass_of c "Base" = true
  /\ property_type c "value" = Some TString
  /\ (forall (number : Type) (v : value number), typed v (TRef c) ->
        typed v (TRef "Literal") /\ typed v (TRef "Base")
        /\ exists s, get_field v "value" = Some (VString s)).
Proof.
  intros H.
  split; [vm_compute; reflexivity|]. split; [vm_compute; reflexivity|].
  split; [now apply subclass_of_Literal_Base|].
  pose proof (literal_family_members _ H) as Hm.
  destruct (subclass_of_resolves _ _ H) as (cd & Hc).
  split; [unfold property_type; rewrite Hm; vm_compute; reflexivity|].
  intros number v Hv.
  assert (HL : typed v (TRef "Literal")).
  { apply (typed_upcast _ v c "Literal" cd Literal Hc resolve_class_Literal); [|exact Hv].
    rewrite Hm. apply incl_refl. }
  split; [exact HL|]. split.
  - apply (typed_upcast _ v "Literal" "Base" Literal Base
             resolve_class_Literal resolve_class_Base); [|exact HL].
    rewrite members_of_Literal. apply incl_tl, incl_refl.
  - destruct (typed_instance _ v "Literal" "value" (IsClass Literal) (pub "value" TString)
                (resolve_class_resolve _ _ resolve_class_Literal) eq_refl HL)
      as (x & Hx & Ht); [vm_compute; reflexivity | reflexivity |].
    apply typed_string in Ht as (s & ->). eauto.
Qed.

Lemma literal_subclasses_are_literals_witness :
  subclass_of "NaNLiteral" "Literal" = true
  /\ typed sample_literal (TRef "NaNLiteral")
  /\ typed sample_literal (TRef "Base").
Proof.
  assert (H : subclass_of "NaNLiteral" "Literal" = true) by (vm_compute; reflexivity).
  assert (T : typed sample_literal (TRef "NaNLiteral")) by (exists 5; vm_compute; reflexivity).
  split; [exact H|]. split; [exact T|].
  exact (proj1 (proj2 (proj2 (proj2 (proj2 (proj2 (literal_subclasses_are_literals "NaNLiteral" H))))
                         nat sample_literal T))).
Defined.




(** C3: no member of the file has an implementation (no initializer, no
    body), the constant [CoffeeScript] is declared without an initializer,
    and the only function that is not a class member is the method
    signature [nodes] of [CoffeeScriptStatic], which has no body either. *)
Theorem declarations_only (m : member) :
  In m all_declared_members ->
  m_impl m = None
  /\ flat_map const_inits index_d_ts = [None]
  /\ free_functions
     = [ method "nodes" [req "source" TString; opt "options" TAny] (TQual "Nodes" "Block") ]
  /\ map m_impl free_functions = [None]
  /\ filter has_impl all_declared_members = [].
Proof.
  intros Hin.
  assert (T : forallb (fun x => negb (has_impl x)) all_declared_members = true)
    by (vm_compute; reflexivity).
  rewrite forallb_forall in T. specialize (T _ Hin).
  unfold has_impl in T. split.
  - destruct (m_impl m); [discriminate | reflexivity].
  - repeat split; vm_compute; reflexivity.
Qed.

Lemma declarations_only_witness :
  In (pub_method "contains" [req "pred" (TRef "Base")] (TUnion [TTrue; TUndefined]))
     all_declared_members
  /\ m_impl (pub_method "contains" [req "pred" (TRef "Base")] (TUnion [TTrue; TUndefined]))
     = None.
Proof.
  assert (Hin : In (pub_method "contains" [req "pred" (TRef "Base")]
                      (TUnion [TTrue; TUndefined])) all_declared_members).
  { unfold all_declared_members. simpl. do 13 right. left. reflexivity. }
  split; [exact Hin|].
  exact (proj1 (declarations_only _ Hin)).
Defined.

(** C4: namespace [Nodes] declares seventy node classes, that is more than
    fifty, with pairwise distinct names, each [Base] or a subclass of it:
    among them literals, expressions, control-flow constructs and module
    declarations.  The only other class of the namespace is the supporting
    type [CodeFragment]; [Scope] and [LocationData] are declared too. *)
Theorem more_than_fifty_node_classes :
  length node_classes = 70
  /\ 50 < length node_classes
  /\ distinct (map c_name node_classes) = true
  /\ forallb (fun c => subclass_of (c_name c) "Base") node_classes = true
  /\ forallb (fun n => existsb (fun c => c_name c =? n) node_classes)
       [ "NumberLiteral"; "StringLiteral"; "BooleanLiteral";
         "Value"; "Call"; "Assign"; "Op";
         "If"; "While"; "For"; "Switch"; "Try"; "Return"; "Throw";
         "ImportDeclaration"; "ExportDeclaration"; "ModuleSpecifier" ] = true
  /\ filter (fun c => negb (subclass_of (c_name c) "Base")) nodes_classes = [CodeFragment]
  /\ resolve "Scope" = Some (IsClass Scope)
  /\ resolve "LocationData" = Some (IsInterface LocationData)
  /\ resolve "CodeFragment" = Some (IsClass CodeFragment).
Proof.
  assert (L : length node_classes = 70) by (vm_compute; reflexivity).
  split; [exact L|]. split; [rewrite L; lia|].
  repeat split; vm_compute; reflexivity.
Qed.

(** C6: [LocationData] is the interface with exactly the four required
    members [first_line], [first_column], [last_line] and [last_column],
    each of type [number]; it is the type of [locationData] in [Base]; and
    a value of this type holds a number in each of the four. *)
Theorem location_data_is_four_numbers (number : Type) (l : value number) :
  typed l (TRef "LocationData") ->
  resolve "LocationData" = Some (IsInterface LocationData)
  /\ members_of "LocationData"
     = [ field "first_line" TNumber; field "first_column" TNumber;
         field "last_line" TNumber; field "last_column" TNumber ]
  /\ property_type "Base" "locationData" = Some (TRef "LocationData")
  /\ exists fl fc ll lc,
       get_field l "first_line" = Some (VNumber fl)
       /\ get_field l "first_column" = Some (VNumber fc)
       /\ get_field l "last_line" = Some (VNumber ll)
       /\ get_field l "last_column" = Some (VNumber lc).
Proof.
  intros H.
  assert (R : resolve "LocationData" = Some (IsInterface LocationData))
    by (vm_compute; reflexivity).
  split; [exact R|]. split; [vm_compute; reflexivity|]. split; [vm_compute; reflexivity|].
  assert (F : forall n, In n ["first_line"; "first_column"; "last_line"; "last_column"] ->
                exists x, get_field l n = Some (VNumber x)).
  { intros n Hn.
    destruct (typed_instance _ l "LocationData" n _ (field n TNumber) R eq_refl H)
      as (x & Hx & Ht).
    - simpl in Hn. repeat (destruct Hn as [<-|Hn]; [vm_compute; reflexivity|]).
      contradiction.
    - reflexivity.
    - apply typed_number in Ht as (k & ->). eauto. }
  destruct (F "first_line") as (fl & Hfl); [simpl; auto|].
  destruct (F "first_column") as (fc & Hfc); [simpl; auto|].
  destruct (F "last_line") as (ll & Hll); [simpl; auto|].
  destruct (F "last_column") as (lc & Hlc); [simpl; auto|].
  exists fl, fc, ll, lc. auto.
Qed.

Lemma location_data_is_four_numbers_witness :
  typed sample_location (TRef "LocationData")
  /\ members_of "LocationData"
     = [ field "first_line" TNumber; field "first_column" TNumber;
         field "last_line" TNumber; field "last_column" TNumber ].
Proof.
  assert (T : typed sample_location (TRef "LocationData")) by (exists 3; vm_compute; reflexivity).
  split; [exact T|].
  exact (proj1 (proj2 (location_data_is_four_numbers nat sample_location T))).
Defined.

(** C7: module ['coffeescript/lib/coffeescript/scope'] exports the class
    [Scope], whose members are [variables], an array of objects with a
    string [name] and a string [type], [positions] and the optional
    [utilities]; an instance of [Scope] holds such an array. *)
Theorem scope_module_exports_Scope (number : Type) (s : value number) :
  typed s (TRef "Scope") ->
  module_exports "coffeescript/lib/coffeescript/scope" = Some (ExportsClass Scope)
  /\ members_of "Scope"
     = [ pub "variables" (TArray (TObject [req "name" TString; req "type" TString]));
         pub "positions" TAny;
         pub_opt "utilities" TAny ]
  /\ map m_optional (members_of "Scope") = [false; false; true]
  /\ exists variables,
       get_field s "variables" = Some (VArray variables)
       /\ Forall (fun x => exists name type,
                    get_field x "name" = Some (VString name)
                    /\ get_field x "type" = Some (VString type)) variables.
Proof.
  intros H.
  split; [vm_compute; reflexivity|]. split; [vm_compute; reflexivity|].
  split; [vm_compute; reflexivity|].
  assert (R : resolve "Scope" = Some (IsClass Scope)) by (vm_compute; reflexivity).
  destruct (typed_instance _ s "Scope" "variables" _
              (pub "variables" (TArray (TObject [req "name" TString; req "type" TString])))
              R eq_refl H)
    as (x & Hx & Ht); [vm_compute; reflexivity | reflexivity |].
  apply typed_array in Ht as (items & -> & Hitems).
  exists items. split; [exact Hx|].
  apply Forall_forall. intros y Hy. rewrite Forall_forall in Hitems.
  specialize (Hitems _ Hy).
  destruct (typed_object _ y _ "name" TString Hitems) as (a & Ha & Hta); [simpl; auto|].
  destruct (typed_object _ y _ "type" TString Hitems) as (b & Hb & Htb); [simpl; auto|].
  apply typed_string in Hta as (name & ->). apply typed_string in Htb as (type & ->).
  eauto.
Qed.

Lemma scope_module_exports_Scope_witness :
  typed sample_scope (TRef "Scope")
  /\ exists variables,
       get_field sample_scope "variables" = Some (VArray variables)
       /\ Forall (fun x => exists name type,
                    get_field x "name" = Some (VString name)
                    /\ get_field x "type" = Some (VString type)) variables.
Proof.
  assert (T : typed sample_scope (TRef "Scope")) by (exists 5; vm_compute; reflexivity).
  split; [exact T|].
  exact (proj2 (proj2 (proj2 (scope_module_exports_Scope nat sample_scope T)))).
Defined.

(** C9: [CodeFragment] extends nothing and declares exactly
    [locationData: LocationData] and [toString(): string]; it has no member
    [code], although its documentation speaks of the fragments' [code]
    snippets; [toString] is its only member that yields a string, and an
    object without a [code] property is a well-typed [CodeFragment]. *)
Theorem code_fragment_has_no_code_field :
  resolve "CodeFragment" = Some (IsClass CodeFragment)
  /\ c_extends CodeFragment = None
  /\ members_of "CodeFragment"
     = [ pub "locationData" (TRef "LocationData"); pub_method "toString" [] TString ]
  /\ find_member "code" (members_of "CodeFragment") = None
  /\ filter yields_string (members_of "CodeFragment") = [ pub_method "toString" [] TString ]
  /\ existsb (mentions "`code` snippets") (c_doc CodeFragment) = true
  /\ typed sample_fragment (TRef "CodeFragment")
  /\ get_field sample_fragment "code" = None.
Proof.
  repeat split; try (vm_compute; reflexivity).
  exists 4. vm_compute. reflexivity.
Qed.

(** C10: [Op] declares exactly [first: string] and [sencond: string]; it
    has no member spelled [second]; neither operand type refers to a
    class, an instance of [Op] holds a string in both, and a string is
    not an instance of [Base]. *)
Theorem op_operands_are_strings (number : Type) (op : value number) :
  typed op (TRef "Op") ->
  (exists cd, resolve_class "Op" = Some cd
              /\ c_extends cd = Some "Base"
              /\ c_members cd = [ pub "first" TString; pub "sencond" TString ])
  /\ property_type "Op" "first" = Some TString
  /\ property_type "Op" "sencond" = Some TString
  /\ find_member "second" (members_of "Op") = None
  /\ is_reference TString = false
  /\ (exists first sencond,
        get_field op "first" = Some (VString first)
        /\ get_field op "sencond" = Some (VString sencond))
  /\ (forall s : string, ~ typed (@VString number s) (TRef "Base")).
Proof.
  intros H.
  assert (Hc : resolve_class "Op"
               = Some (mkClass [] "Op" (Some "Base") [pub "first" TString; pub "sencond" TString]))
    by (vm_compute; reflexivity).
  split; [eexists; split; [exact Hc | split; reflexivity]|].
  split; [vm_compute; reflexivity|]. split; [vm_compute; reflexivity|].
  split; [vm_compute; reflexivity|]. split; [reflexivity|]. split.
  - destruct (typed_instance _ op "Op" "first" _ (pub "first" TString)
                (resolve_class_resolve _ _ Hc) eq_refl H)
      as (a & Ha & Hta); [vm_compute; reflexivity | reflexivity |].
    destruct (typed_instance _ op "Op" "sencond" _ (pub "sencond" TString)
                (resolve_class_resolve _ _ Hc) eq_refl H)
      as (b & Hb & Htb); [vm_compute; reflexivity | reflexivity |].
    apply typed_string in Hta as (first & ->). apply typed_string in Htb as (sencond & ->).
    eauto.
  - intros s Hs.
    destruct (class_instance_is_object _ _ _ _ resolve_class_Base Hs) as (props & E).
    discriminate E.
Qed.

Lemma op_operands_are_strings_witness :
  typed sample_op (TRef "Op")
  /\ exists first sencond,
       get_field sample_op "first" = Some (VString first)
       /\ get_field sample_op "sencond" = Some (VString sencond).
Proof.
  assert (T : typed sample_op (TRef "Op")) by (exists 5; vm_compute; reflexivity).
  split; [exact T|].
  exact (proj1 (proj2 (proj2 (proj2 (proj2 (proj2 (op_operands_are_strings nat sample_op T))))))).
Defined.

(** * Further properties of the declarations *)

(** ** The class hierarchy *)

Lemma superclasses_In (fuel : nat) (c : string) (a : class_decl) :
  In a (superclasses fuel c) -> resolve_class (c_name a) = Some a.
Proof.
  revert c. induction fuel as [|f IH]; intros c; simpl; [tauto|].
  destruct (resolve_class c) as [cd|] eqn:Hc; [|simpl; tauto].
  destruct (resolve_class_sound _ _ Hc) as (_ & Hname).
  intros [<-|H]; [now rewrite Hname|].
  destruct (c_extends cd) as [p|]; [now apply (IH p) | contradiction].
Qed.

Lemma subclass_of_superclass (c d : string) :
  subclass_of c d = true ->
  exists cd dd, resolve_class c = Some cd /\ In cd all_classes /\ c_name cd = c
                /\ In dd (superclasses hierarchy_fuel c) /\ c_name dd = d.
Proof.
  intros H. destruct (subclass_of_resolves _ _ H) as (cd & Hc).
  destruct (resolve_class_sound _ _ Hc) as (Hin & Hname).
  unfold subclass_of in H. apply existsb_exists in H as (dd & Hdd & E).
  apply String.eqb_eq in E. exists cd, dd. auto.
Qed.

Lemma subclass_of_refl (c : string) (cd : class_decl) :
  resolve_class c = Some cd -> subclass_of c c = true.
Proof.
  intros Hc. unfold subclass_of.
  change hierarchy_fuel with (S (pred hierarchy_fuel)).
  simpl superclasses. rewrite Hc. simpl existsb.
  destruct (resolve_class_sound _ _ Hc) as (_ & ->).
  now rewrite String.eqb_refl.
Qed.

(** X1: on the classes of the file, [subclass_of] is an order: every
    declared class is a subclass of itself, two classes that are
    subclasses of each other are the same class (no [extends] cycle), and
    a subclass of a subclass is a subclass. *)
Theorem subclass_of_is_an_order (c d e : string) :
  subclass_of c d = true ->
  subclass_of c c = true
  /\ subclass_of d d = true
  /\ (subclass_of d c = true -> c = d)
  /\ (subclass_of d e = true -> subclass_of c e = true).
Proof.
  intros H.
  destruct (subclass_of_superclass _ _ H) as (cd & dd & Hc & Hin & Hcn & Hdd & Hdn).
  pose proof (superclasses_In _ _ _ Hdd) as Hd. rewrite Hdn in Hd.
  split; [exact (subclass_of_refl _ _ Hc)|].
  split; [exact (subclass_of_refl _ _ Hd)|]. split.
  - intros H'.
    assert (T : forallb (fun x =>
                  forallb (fun y => implb (subclass_of (c_name y) (c_name x))
                                          (c_name x =? c_name y))
                          (superclasses hierarchy_fuel (c_name x))) all_classes = true)
      by (vm_compute; reflexivity).
    rewrite forallb_forall in T. specialize (T _ Hin).
    rewrite forallb_forall in T. rewrite Hcn in T. specialize (T _ Hdd).
    rewrite Hdn, H' in T. now apply String.eqb_eq in T.
  - intros H'.
    destruct (subclass_of_superclass _ _ H') as (dd' & ee & Hd' & _ & _ & Hee & Hen).
    assert (T : forallb (fun x =>
                  forallb (fun y =>
                    forallb (fun z => subclass_of (c_name x) (c_name z))
                            (superclasses hierarchy_fuel (c_name y)))
                          (superclasses hierarchy_fuel (c_name x))) all_classes = true)
      by (vm_compute; reflexivity).
    rewrite forallb_forall in T. specialize (T _ Hin).
    rewrite forallb_forall in T. rewrite Hcn in T. specialize (T _ Hdd).
    rewrite forallb_forall in T. rewrite Hdn in T. specialize (T _ Hee).
    now rewrite Hen in T.
Qed.

Lemma subclass_of_is_an_order_witness :
  subclass_of "CSXTag" "Literal" = true
  /\ (subclass_of "Literal" "Base" = true -> subclass_of "CSXTag" "Base" = true).
Proof.
  assert (H : subclass_of "CSXTag" "Literal" = true) by (vm_compute; reflexivity).
  split; [exact H|].
  exact (proj2 (proj2 (proj2 (subclass_of_is_an_order "CSXTag" "Literal" "Base" H)))).
Defined.

(** X2: the hierarchy has a single root: a class with an [extends] clause
    is a proper subclass of [Base], its parent is a class of the file, and
    its chain of superclasses, itself included, has at most four classes. *)
Theorem hierarchy_is_rooted_at_Base (c parent : string) (cd : class_decl) :
  resolve_class c = Some cd -> c_extends cd = Some parent ->
  c <> "Base"
  /\ subclass_of c "Base" = true
  /\ subclass_of c parent = true
  /\ (exists pd, resolve_class parent = Some pd)
  /\ length (superclasses hierarchy_fuel c) <= 4.
Proof.
  intros Hc Hp. destruct (resolve_class_sound _ _ Hc) as (Hin & Hname).
  assert (T : forallb (fun x =>
                match c_extends x with
                | None => true
                | Some p =>
                    negb (c_name x =? "Base")
                    && subclass_of (c_name x) "Base"
                    && subclass_of (c_name x) p
                    && match resolve_class p with Some _ => true | None => false end
                    && Nat.leb (length (superclasses hierarchy_fuel (c_name x))) 4
                end) all_classes = true)
    by (vm_compute; reflexivity).
  rewrite forallb_forall in T. specialize (T _ Hin).
  rewrite Hp, Hname in T.
  repeat (apply andb_true_iff in T as (T & ?)).
  apply negb_true_iff, String.eqb_neq in T.
  repeat split; try assumption.
  - destruct (resolve_class parent); [eauto | discriminate].
  - now apply Nat.leb_le.
Qed.

Lemma hierarchy_is_rooted_at_Base_witness :
  subclass_of "ExportAllDeclaration" "Base" = true
  /\ length (superclasses hierarchy_fuel "ExportAllDeclaration") <= 4.
Proof.
  assert (Hc : resolve_class "ExportAllDeclaration"
               = Some (mkClass [] "ExportAllDeclaration" (Some "ExportDeclaration") []))
    by (vm_compute; reflexivity).
  pose proof (hierarchy_is_rooted_at_Base "ExportAllDeclaration" "ExportDeclaration" _
                Hc eq_refl) as H.
  exact (conj (proj1 (proj2 H)) (proj2 (proj2 (proj2 (proj2 H))))).
Defined.

(** ** Inheritance of members *)







Lemma find_in_namespace_name (name : string) (body : list ns_decl) (d : type_def) :
  find_in_namespace name body = Some d -> In name (map ns_decl_name body).
Proof.
  intros H. destruct (find_in_namespace_sound _ _ _ H) as (nd & Hin & <- & _).
  now apply in_map.
Qed.

Lemma find_in_namespaces_name (name : string) (file : list top_decl) (d : type_def) :
  find_in_namespaces name file = Some d -> In name (flat_map top_decl_names file).
Proof.
  induction file as [|t file IH]; simpl; [discriminate|].
  intros H. rewrite in_app_iff.
  destruct t; simpl; try (right; now apply IH).
  destruct (find_in_namespace name body) as [d'|] eqn:E.
  - left. right. exact (find_in_namespace_name _ _ _ E).
  - right. now apply IH.
Qed.

Lemma find_top_name (name : string) (file : list top_decl) (d : type_def) :
  find_top name file = Some d -> In name (flat_map top_decl_names file).
Proof.
  induction file as [|t file IH]; simpl; [discriminate|].
  intros H. rewrite in_app_iff.
  destruct t; simpl; try (right; now apply IH).
  - destruct (c_name c =? name) eqn:E; [|right; now apply IH].
    apply String.eqb_eq in E. auto.
  - destruct (i_name i =? name) eqn:E; [|right; now apply IH].
    apply String.eqb_eq in E. auto.
Qed.

(** A name that resolves is a name the file declares. *)
Lemma resolve_declared (name : string) (d : type_def) :
  resolve name = Some d -> In name declared_names.
Proof.
  unfold resolve, declared_names.
  destruct (find_in_namespaces name index_d_ts) as [d'|] eqn:E.
  - intros _. exact (find_in_namespaces_name _ _ _ E).
  - apply find_top_name.
Qed.

Lemma find_member_distinct (ms : list member) (m : member) :
  distinct (map m_name ms) = true -> In m ms ->
  find_member (m_name m) ms = Some m.
Proof.
  unfold find_member. induction ms as [|x ms IH]; simpl; [tauto|].
  intros H Hin. apply andb_true_iff in H as (Hx & Hd).
  destruct Hin as [->|Hin]; [now rewrite String.eqb_refl|].
  destruct (m_name x =? m_name m) eqn:E; [|now apply IH].
  apply String.eqb_eq in E. apply negb_true_iff in Hx.
  assert (Hex : existsb (String.eqb (m_name x)) (map m_name ms) = true).
  { apply existsb_exists. exists (m_name m). split; [now apply in_map|].
    now apply String.eqb_eq. }
  congruence.
Qed.

(** X4: a class or interface never has two members of one name, inherited
    members included: each member is the one [find_member] gives for its
    name, so a subclass's own declaration is the one found. *)
Theorem member_lookup_is_unambiguous (c : string) (m : member) :
  In m (members_of c) ->
  find_member (m_name m) (members_of c) = Some m
  /\ distinct (map m_name (members_of c)) = true.
Proof.
  intros Hin.
  assert (Hd : distinct (map m_name (members_of c)) = true).
  { destruct (resolve c) as [d|] eqn:Hc.
    - assert (T : forallb (fun n => distinct (map m_name (members_of n))) declared_names = true)
        by (vm_compute; reflexivity).
      rewrite forallb_forall in T. exact (T _ (resolve_declared _ _ Hc)).
    - unfold members_of. now rewrite Hc. }
  split; [now apply find_member_distinct | exact Hd].
Qed.

Lemma member_lookup_is_unambiguous_witness :
  find_member "isStatement" (members_of "Value")
  = Some (pub_method "isStatement" o_req TBoolean).
Proof.
  apply (member_lookup_is_unambiguous "Value" (pub_method "isStatement" o_req TBoolean)).
  vm_compute. do 7 right. left. reflexivity.
Defined.

(** ** Overriding *)

Lemma ty_eqb_sound : forall a b, ty_eqb a b = true -> a = b.
Proof.
  fix IH 1. intros a b.
  destruct a; destruct b; simpl; try discriminate; try reflexivity.
  - intros H. apply String.eqb_eq in H. now subst.
  - intros H. apply String.eqb_eq in H. now subst.
  - intros H. apply andb_true_iff in H as (H1 & H2).
    apply String.eqb_eq in H1, H2. now subst.
  - intros H. now rewrite (IH _ _ H).
  - intros H. f_equal. revert alts0 H.
    induction alts as [|x r IHr]; intros [|y r']; try discriminate; [reflexivity|].
    intros H. apply andb_true_iff in H as (H1 & H2).
    rewrite (IH _ _ H1), (IHr _ H2). reflexivity.
  - intros H. f_equal. revert props0 H.
    induction props as [|[n o t] r IHr]; intros [|[n' o' t'] r']; try discriminate; [reflexivity|].
    intros H. repeat (apply andb_true_iff in H as (H & ?)).
    apply String.eqb_eq in H. apply Bool.eqb_prop in H2.
    rewrite (IH _ _ H1), (IHr _ H0). now subst.
  - intros H. apply andb_true_iff in H as (H & Hr).
    rewrite (IH _ _ Hr). f_equal. revert params0 H.
    induction params as [|[n o t] r IHr]; intros [|[n' o' t'] r']; try discriminate; [reflexivity|].
    intros H. repeat (apply andb_true_iff in H as (H & ?)).
    apply String.eqb_eq in H. apply Bool.eqb_prop in H2.
    rewrite (IH _ _ H1), (IHr _ H0). now subst.
Qed.




(** ** Instances *)

Section Instances.
Variable number : Type.
Implicit Types (v x : value number) (t : ty).

Lemma has_type_fun (f : nat) x (ps ps' : list binding) (r r' : ty) :
  has_type f x (TFun ps r) = has_type f x (TFun ps' r').
Proof. destruct f; reflexivity. Qed.

Lemma same_values_sound (f : nat) x (t' t : ty) :
  same_values t' t = true -> has_type f x t' = has_type f x t.
Proof.
  unfold same_values. intros H.
  destruct t'; try (now rewrite (ty_eqb_sound _ _ H)).
  destruct t; try (now rewrite (ty_eqb_sound _ _ H)).
  apply has_type_fun.
Qed.

Lemma covers_shape (f : nat) v (sub sup : list member) :
  covers sub sup = true ->
  has_shape (has_type f) v (map member_binding sub) = true ->
  has_shape (has_type f) v (map member_binding sup) = true.
Proof.
  unfold has_shape. destruct v; try discriminate.
  intros Hcov H. rewrite forallb_forall in *. intros b Hb.
  apply in_map_iff in Hb as (m & <- & Hm).
  unfold covers in Hcov. rewrite forallb_forall in Hcov.
  specialize (Hcov _ Hm). apply existsb_exists in Hcov as (m' & Hm' & E).
  apply andb_true_iff in E as (E & Ht). apply andb_true_iff in E as (En & Eo).
  apply String.eqb_eq in En. apply Bool.eqb_prop in Eo.
  specialize (H _ (in_map member_binding _ _ Hm')).
  unfold meets in *. simpl b_name in *. simpl b_type in *. simpl b_optional in *.
  rewrite <- En, <- Eo.
  destruct (get_field (VObject props) (m_name m')) as [x|]; [|exact H].
  now rewrite <- (same_values_sound f x _ _ Ht).
Qed.

(** An instance of a class is an instance of any class whose members it
    covers. *)
Lemma typed_covers v (c d : string) (cd dd : class_decl) :
  resolve_class c = Some cd -> resolve_class d = Some dd ->
  covers (members_of c) (members_of d) = true ->
  typed v (TRef c) -> typed v (TRef d).
Proof.
  intros Hc Hd Hcov [fuel Hv]. destruct fuel as [|f]; [discriminate|]. exists (S f).
  rewrite (has_type_class _ _ _ _ _ Hc) in Hv. rewrite (has_type_class _ _ _ _ _ Hd).
  now apply covers_shape with (2 := Hv).
Qed.

(** X6: an instance of a class is an instance of each of its
    superclasses. *)
Theorem instance_of_subclass_is_instance_of_superclass (c d : string) v :
  subclass_of c d = true -> typed v (TRef c) -> typed v (TRef d).
Proof.
  intros H.
  destruct (subclass_of_superclass _ _ H) as (cd & dd & Hc & Hin & Hcn & Hdd & Hdn).
  pose proof (superclasses_In _ _ _ Hdd) as Hd. rewrite Hdn in Hd.
  apply (typed_covers v c d cd dd Hc Hd).
  assert (T : forallb (fun sub =>
                forallb (fun sup => covers (members_of (c_name sub)) (members_of (c_name sup)))
                        (superclasses hierarchy_fuel (c_name sub))) all_classes = true)
    by (vm_compute; reflexivity).
  rewrite forallb_forall in T. specialize (T _ Hin).
  rewrite forallb_forall in T. rewrite Hcn in T. specialize (T _ Hdd).
  now rewrite Hdn in T.
Qed.

Lemma existsb_str_lits (f : nat) v (lits : list string) :
  existsb (fun a => has_type f v a) (map TStrLit lits) = true ->
  exists s, v = VString s /\ In s lits.
Proof.
  induction lits as [|l lits IH]; simpl; [discriminate|].
  intros H. apply orb_true_iff in H as [H|H].
  - destruct f; [discriminate|]. destruct v; try discriminate.
    simpl in H. apply String.eqb_eq in H. subst. eauto.
  - destruct (IH H) as (s & -> & Hs). eauto.
Qed.


(** X8: [lastNode] is never declared again below [Base]: in every node
    class its result type is [Base | null], so a result is [null] or an
    instance of [Base]. *)
Theorem lastNode_gives_a_node_or_null (c : string) v :
  subclass_of c "Base" = true ->
  typed v (TUnion [TRef "Base"; TNull]) ->
  method_sig c "lastNode"
  = Some ([req "list" (TArray (TRef "Base"))], TUnion [TRef "Base"; TNull])
  /\ (v = VNull \/ typed v (TRef "Base")).
Proof.
  intros H [fuel Hv]. destruct (subclass_of_resolves _ _ H) as (cd & Hc). split.
  - unfold method_sig. rewrite (members_of_class _ _ Hc).
    rewrite (inherited_unchanged Base "lastNode" resolve_class_Base);
      [reflexivity | vm_compute; reflexivity | reflexivity | exact H].
  - destruct fuel as [|f]; [discriminate|].
    change (has_type f v (TRef "Base") || (has_type f v TNull || false) = true) in Hv.
    apply orb_true_iff in Hv as [Hv|Hv]; [right; now exists f|].
    rewrite orb_false_r in Hv. left.
    destruct f; [discriminate|]. destruct v; try discriminate. reflexivity.
Qed.

End Instances.

Lemma instance_of_subclass_is_instance_of_superclass_witness :
  subclass_of "CSXTag" "IdentifierLiteral" = true
  /\ typed sample_literal (TRef "CSXTag")
  /\ typed sample_literal (TRef "IdentifierLiteral").
Proof.
  assert (H : subclass_of "CSXTag" "IdentifierLiteral" = true) by (vm_compute; reflexivity).
  assert (T : typed sample_literal (TRef "CSXTag")) by (exists 5; vm_compute; reflexivity).
  split; [exact H|]. split; [exact T|].
  exact (instance_of_subclass_is_instance_of_superclass nat "CSXTag" "IdentifierLiteral"
           sample_literal H T).
Defined.


Lemma lastNode_gives_a_node_or_null_witness :
  subclass_of "Block" "Base" = true
  /\ typed (@VNull nat) (TUnion [TRef "Base"; TNull])
  /\ (@VNull nat = VNull \/ typed (@VNull nat) (TRef "Base")).
Proof.
  assert (H : subclass_of "Block" "Base" = true) by (vm_compute; reflexivity).
  assert (T : typed (@VNull nat) (TUnion [TRef "Base"; TNull]))
    by (exists 2; vm_compute; reflexivity).
  split; [exact H|]. split; [exact T|].
  exact (proj2 (lastNode_gives_a_node_or_null nat "Block" VNull H T)).
Defined.

(** ** Fuel *)

Section Fuel.
Variable number : Type.
Implicit Types (v : value number) (t : ty).









Lemma meets_required (chk : value number -> ty -> bool) v (n : string) (t : ty) :
  meets chk v (Bind n false t) = true ->
  exists y, get_field v n = Some y /\ chk y t = true.
Proof.
  unfold meets. simpl. destruct (get_field v n) as [y|]; [|discriminate].
  rewrite orb_false_r. eauto.
Qed.

(** X10: an [AbstractO] holds the numbers [index], [level] and [indent]
    and the boolean [sharedScope]; its [scope], when present and not
    [undefined], is an instance of [Scope]. *)
Theorem abstract_o_scope_is_optional v :
  typed v (TRef "AbstractO") ->
  (forall n, In n ["index"; "level"; "indent"] ->
             exists k, get_field v n = Some (VNumber k))
  /\ (exists b, get_field v "sharedScope" = Some (VBool b))
  /\ match get_field v "scope" with
     | None => True
     | Some s => s = VUndefined \/ typed s (TRef "Scope")
     end.
Proof.
  intros [fuel H]. destruct fuel as [|f]; [discriminate|].
  assert (R : resolve "AbstractO" = Some (IsInterface AbstractO)) by (vm_compute; reflexivity).
  rewrite has_type_ref, R in H. unfold has_shape in H. destruct v; try discriminate.
  rewrite forallb_forall in H.
  assert (M : forall m, In m (i_members AbstractO) ->
                meets (has_type f) (VObject props) (member_binding m) = true)
    by (intros m Hm; apply H; now apply (in_map member_binding)).
  split; [|split].
  - intros n Hn.
    assert (Hm : In (field n TNumber) (i_members AbstractO))
      by (simpl in Hn; simpl; intuition (subst; auto)).
    destruct (meets_required _ _ _ _ (M _ Hm)) as (y & Hy & Ht).
    destruct (has_type_number _ _ _ Ht) as (k & ->). eauto.
  - assert (Hm : In (field "sharedScope" TBoolean) (i_members AbstractO))
      by (simpl; auto 6).
    destruct (meets_required _ _ _ _ (M _ Hm)) as (y & Hy & Ht).
    destruct f; [discriminate|]. destruct y; try discriminate. eauto.
  - assert (Hm : In (field_opt "scope" (TRef "Scope")) (i_members AbstractO))
      by (simpl; auto 6).
    specialize (M _ Hm). unfold meets in M.
    change (b_name (member_binding (field_opt "scope" (TRef "Scope")))) with "scope" in M.
    destruct (get_field (VObject props) "scope") as [y|]; [|exact I].
    apply orb_true_iff in M as [M|M]; [right; now exists f|].
    left. apply andb_true_iff in M as (_ & M). destruct y; try discriminate. reflexivity.
Qed.

(** X11: a call of [nodes] is accepted only with one or two arguments,
    the first of which is a string. *)
Theorem nodes_takes_a_string_and_at_most_one_more
    (fuel : nat) (params : list binding) (ret : ty) (args : list (value number)) :
  method_sig "CoffeeScriptStatic" "nodes" = Some (params, ret) ->
  accepts fuel params args = true ->
  exists source, args = [VString source] \/ exists options, args = [VString source; options].
Proof.
  intros Hs.
  assert (E : method_sig "CoffeeScriptStatic" "nodes"
              = Some ([req "source" TString; opt "options" TAny], TQual "Nodes" "Block"))
    by (vm_compute; reflexivity).
  rewrite E in Hs. injection Hs as <- <-. destruct args as [|a [|b [|c rest]]]; simpl; try discriminate.
  - rewrite orb_false_r, andb_true_r. intros H.
    destruct (has_type_string _ _ _ H) as (s & ->). eauto.
  - rewrite orb_false_r. intros H. apply andb_true_iff in H as (H & _).
    destruct (has_type_string _ _ _ H) as (s & ->). eauto.
  - rewrite andb_false_r, andb_false_r. discriminate.
Qed.

End Fuel.


Lemma abstract_o_scope_is_optional_witness :
  typed sample_options (TRef "AbstractO")
  /\ get_field sample_options "scope" = None
  /\ exists b, get_field sample_options "sharedScope" = Some (VBool b).
Proof.
  assert (T : typed sample_options (TRef "AbstractO")) by (exists 3; vm_compute; reflexivity).
  split; [exact T|]. split; [reflexivity|].
  exact (proj1 (proj2 (abstract_o_scope_is_optional nat sample_options T))).
Defined.

Lemma nodes_takes_a_string_and_at_most_one_more_witness :
  accepts 1 [req "source" TString; opt "options" TAny] [@VString nat "x = 1"] = true
  /\ exists source, [@VString nat "x = 1"] = [VString source]
                    \/ exists options, [@VString nat "x = 1"] = [VString source; options].
Proof.
  split; [reflexivity|].
  apply (nodes_takes_a_string_and_at_most_one_more nat 1
           [req "source" TString; opt "options" TAny] (TQual "Nodes" "Block")
           [VString "x = 1"]); reflexivity.
Defined.

(** ** Consistency of the names *)

Lemma existsb_eqb_In (k : string) (l : list string) :
  existsb (String.eqb k) l = true <-> In k l.
Proof.
  rewrite existsb_exists. split.
  - intros (x & Hx & E). apply String.eqb_eq in E. now subst.
  - intros H. exists k. split; [exact H | apply String.eqb_refl].
Qed.



(** X13: a child kind is the name of a property that some class declares,
    unless it is [accessor], [class] or [second]: [Op] spells its second
    operand [sencond], which is no child kind. *)
Theorem child_kinds_name_declared_properties (k : string) :
  In k (str_lits ChildKind) ->
  (In k declared_properties <-> ~ In k ["accessor"; "class"; "second"])
  /\ In "sencond" declared_properties
  /\ ~ In "sencond" (str_lits ChildKind).
Proof.
  intros Hk.
  assert (T : forallb (fun x => Bool.eqb (existsb (String.eqb x) declared_properties)
                                         (negb (existsb (String.eqb x)
                                                  ["accessor"; "class"; "second"])))
                      (str_lits ChildKind) = true)
    by (vm_compute; reflexivity).
  rewrite forallb_forall in T. specialize (T _ Hk). apply Bool.eqb_prop in T.
  split; [|split].
  - rewrite <- !existsb_eqb_In, T, negb_true_iff.
    destruct (existsb (String.eqb k) ["accessor"; "class"; "second"]);
      split; congruence.
  - apply existsb_eqb_In. vm_compute. reflexivity.
  - rewrite <- existsb_eqb_In.
    assert (E : existsb (String.eqb "sencond") (str_lits ChildKind) = false)
      by (vm_compute; reflexivity).
    rewrite E. discriminate.
Qed.

Lemma child_kinds_name_declared_properties_witness :
  In "first" (str_lits ChildKind) /\ In "first" declared_properties.
Proof.
  assert (Hk : In "first" (str_lits ChildKind))
    by (apply existsb_eqb_In; vm_compute; reflexivity).
  split; [exact Hk|].
  apply (proj1 (child_kinds_name_declared_properties "first" Hk)).
  simpl. intros [E|[E|[E|[]]]]; discriminate E.
Defined.

(** ** Shapes that span several declarations *)

Section Shapes.
Variable number : Type.
Implicit Types (v : value number) (t : ty).

Lemma typed_str_lits v (lits : list string) :
  typed v (TUnion (map TStrLit lits)) -> exists s, v = VString s /\ In s lits.
Proof.
  intros [fuel H]. destruct fuel as [|f]; [discriminate|].
  exact (existsb_str_lits _ _ _ _ H).
Qed.

Lemma typed_union v (alts : list ty) :
  typed v (TUnion alts) -> exists a, In a alts /\ typed v a.
Proof.
  intros [fuel H]. destruct fuel as [|f]; [discriminate|].
  change (existsb (fun a => has_type f v a) alts = true) in H.
  apply existsb_exists in H as (a & Ha & Hv). exists a. split; [exact Ha | now exists f].
Qed.

(** X14: the [funcGlyph] of a [Code] is a [FuncGlyph], and its [glyph] is
    one of the two strings [->] and [=>]. *)
Theorem code_glyph_is_an_arrow v :
  typed v (TRef "Code") ->
  exists g s, get_field v "funcGlyph" = Some g
              /\ typed g (TRef "FuncGlyph")
              /\ get_field g "glyph" = Some (VString s)
              /\ (s = "->" \/ s = "=>").
Proof.
  intros H.
  assert (RC : exists d, resolve "Code" = Some (IsClass d)) by (vm_compute; eauto).
  assert (RG : exists d, resolve "FuncGlyph" = Some (IsClass d)) by (vm_compute; eauto).
  destruct RC as (dc & RC). destruct RG as (dg & RG).
  destruct (typed_instance _ v "Code" "funcGlyph" _ (pub "funcGlyph" (TRef "FuncGlyph"))
              RC eq_refl H) as (g & Hg & Tg); [vm_compute; reflexivity | reflexivity |].
  destruct (typed_instance _ g "FuncGlyph" "glyph" _
              (pub "glyph" (TUnion [TStrLit "->"; TStrLit "=>"])) RG eq_refl Tg)
    as (x & Hx & Tx); [vm_compute; reflexivity | reflexivity |].
  destruct (typed_str_lits x ["->"; "=>"] Tx) as (s & -> & Hs).
  exists g, s. simpl in Hs. intuition.
Qed.

(** X15: the [options] of an [Assign] hold three strings and a
    [moduleDeclaration] that is [import] or [export]. *)
Theorem assign_options_shape v :
  typed v (TRef "Assign") ->
  exists o kind,
    get_field v "options" = Some o
    /\ (forall n, In n ["param"; "subpattern"; "operatorToken"] ->
                  exists s, get_field o n = Some (VString s))
    /\ get_field o "moduleDeclaration" = Some (VString kind)
    /\ (kind = "import" \/ kind = "export").
Proof.
  intros H.
  assert (R : resolve "Assign" = Some (IsClass Assign)) by (vm_compute; reflexivity).
  destruct (typed_instance _ v "Assign" "options" _
              (pub "options"
                 (TObject [ req "param" TString; req "subpattern" TString;
                            req "operatorToken" TString;
                            req "moduleDeclaration" (TUnion [TStrLit "import"; TStrLit "export"]) ]))
              R eq_refl H) as (o & Ho & To); [vm_compute; reflexivity | reflexivity |].
  destruct (typed_object _ o _ "moduleDeclaration"
              (TUnion [TStrLit "import"; TStrLit "export"]) To) as (x & Hx & Tx);
    [simpl; auto 6|].
  destruct (typed_str_lits x ["import"; "export"] Tx) as (kind & -> & Hk).
  exists o, kind. split; [exact Ho|]. split; [|split; [exact Hx | simpl in Hk; intuition]].
  intros n Hn.
  destruct (typed_object _ o _ n TString To) as (y & Hy & Ty).
  - simpl in Hn. simpl. unfold req. intuition (subst; auto).
  - apply typed_string in Ty as (s & ->). eauto.
Qed.

(** X16: the [base] of a [Value] is declared as one of five classes; in
    each case it is a node, that is an instance of [Base]. *)
Theorem value_base_is_a_node v :
  typed v (TRef "Value") ->
  exists b, get_field v "base" = Some b
            /\ typed b (TRef "Base")
            /\ exists c, In c ["Obj"; "Literal"; "PropertyName"; "Code"; "Call"]
                         /\ typed b (TRef c).
Proof.
  intros H.
  assert (R : resolve "Value" = Some (IsClass Value)) by (vm_compute; reflexivity).
  destruct (typed_instance _ v "Value" "base" _
              (pub "base" (TUnion [TRef "Obj"; TRef "Literal"; TRef "PropertyName";
                                   TRef "Code"; TRef "Call"]))
              R eq_refl H) as (b & Hb & Tb); [vm_compute; reflexivity | reflexivity |].
  destruct (typed_union _ _ Tb) as (a & Ha & Ta).
  exists b. split; [exact Hb|].
  assert (U : forall c, In c ["Obj"; "Literal"; "PropertyName"; "Code"; "Call"] ->
                typed b (TRef c) -> typed b (TRef "Base")).
  { intros c Hc Tc.
    assert (E : exists cd, resolve_class c = Some cd
                           /\ covers (members_of c) (members_of "Base") = true).
    { simpl in Hc.
      repeat (destruct Hc as [<-|Hc];
              [eexists; split; [vm_compute; reflexivity | vm_compute; reflexivity]|]).
      contradiction. }
    destruct E as (cd & Hcd & Hm).
    exact (typed_covers _ b c "Base" cd Base Hcd resolve_class_Base Hm Tc). }
  simpl in Ha.
  repeat (destruct Ha as [<-|Ha];
          [match type of Ta with
           | typed _ (TRef ?c) =>
               split; [apply (U c); [simpl; auto 6 | exact Ta]
                      | exists c; split; [simpl; auto 6 | exact Ta]]
           end|]).
  contradiction.
Qed.

End Shapes.

Lemma code_glyph_is_an_arrow_witness :
  typed sample_code (TRef "Code")
  /\ exists g s, get_field sample_code "funcGlyph" = Some g
                 /\ typed g (TRef "FuncGlyph")
                 /\ get_field g "glyph" = Some (VString s)
                 /\ (s = "->" \/ s = "=>").
Proof.
  assert (T : typed sample_code (TRef "Code")) by (exists 6; vm_compute; reflexivity).
  split; [exact T|].
  exact (code_glyph_is_an_arrow nat sample_code T).
Defined.

Lemma assign_options_shape_witness :
  typed sample_assign (TRef "Assign")
  /\ exists o kind,
       get_field sample_assign "options" = Some o
       /\ (forall n, In n ["param"; "subpattern"; "operatorToken"] ->
                     exists s, get_field o n = Some (VString s))
       /\ get_field o "moduleDeclaration" = Some (VString kind)
       /\ (kind = "import" \/ kind = "export").
Proof.
  assert (T : typed sample_assign (TRef "Assign")) by (exists 8; vm_compute; reflexivity).
  split; [exact T|].
  exact (assign_options_shape nat sample_assign T).
Defined.

Lemma value_base_is_a_node_witness :
  typed sample_value (TRef "Value")
  /\ exists b, get_field sample_value "base" = Some b /\ typed b (TRef "Base").
Proof.
  assert (T : typed sample_value (TRef "Value")) by (exists 7; vm_compute; reflexivity).
  split; [exact T|].
  destruct (value_base_is_a_node nat sample_value T) as (b & Hb & Tb & _).
  exists b. split; [exact Hb | exact Tb].
Defined.
